(** * pysmi: the directory-backed MIB reader and the Python-file writer

    A shallow embedding of [pysmi/reader/localfile.py] (class [FileReader])
    and [pysmi/writer/pyfile.py] (class [PyFileWriter]).

    Python [str] values are Rocq [string]s whose characters stand for the
    code points 0..255; [bytes] values are [list byte].  Calls into [os],
    [os.path], [tempfile] and [py_compile] are interpreted against an
    explicit file-system value, and every call that can raise is modelled
    by a function into [option] or into a result type. *)

From Stdlib Require Import ZArith String Ascii.
From Stdlib.Strings Require Import Byte.
From stdpp Require Import gmap strings list fin_maps.

Local Open Scope string_scope.

(** ** Python values shared by the two modules *)

Definition bytes := list byte.

(** Outcome of a Python call: a value, or a raised exception. *)
Inductive result (E A : Type) : Type :=
| Ok (a : A)
| Raise (e : E).
Arguments Ok {E A} a.
Arguments Raise {E A} e.

Module PyStr.

Definition TAB : ascii := "009"%char.
Definition LF : ascii := "010"%char.
Definition CR : ascii := "013"%char.
Definition SPACE : ascii := " "%char.
Definition NUL : ascii := "000"%char.

(** [str.isspace] on one character, for code points below 256:
    U+0009..U+000D, U+001C..U+001F, U+0020, U+0085 and U+00A0. *)
Definition isspace (c : ascii) : bool :=
  let n := nat_of_ascii c in
  (((9 <=? n) && (n <=? 13)) || ((28 <=? n) && (n <=? 32))
   || (n =? 133) || (n =? 160))%nat.

(** [s.lstrip()], [s.rstrip()] and [s.strip()] with no argument. *)
Fixpoint lstrip (s : string) : string :=
  match s with
  | String c s' => if isspace c then lstrip s' else s
  | EmptyString => EmptyString
  end.

Fixpoint rstrip (s : string) : string :=
  match s with
  | EmptyString => EmptyString
  | String c s' =>
      match rstrip s' with
      | EmptyString => if isspace c then EmptyString else String c EmptyString
      | r => String c r
      end
  end.

Definition strip (s : string) : string := rstrip (lstrip s).

(** [s.partition(sep)] for a one-character separator: the text before the
    first occurrence, the separator, and the text after it; when the
    separator does not occur, [(s, '', '')]. *)
Fixpoint partition (sep : ascii) (s : string) : string * string * string :=
  match s with
  | EmptyString => (EmptyString, EmptyString, EmptyString)
  | String c s' =>
      if Ascii.eqb c sep then (EmptyString, String sep EmptyString, s')
      else
        let '(h, m, t) := partition sep s' in (String c h, m, t)
  end.

(** Text-mode reading translates the line endings CR LF and CR to LF. *)
Fixpoint universal_newlines (s : string) : string :=
  match s with
  | EmptyString => EmptyString
  | String c s' =>
      if Ascii.eqb c CR then
        match s' with
        | String c' s'' =>
            if Ascii.eqb c' LF then String LF (universal_newlines s'')
            else String LF (universal_newlines s')
        | EmptyString => String LF EmptyString
        end
      else String c (universal_newlines s')
  end.

(** Splitting after every LF, the line keeping its LF (as [readlines]
    does).  [cur] is the line under construction, reversed. *)
Fixpoint splitlines_keep (cur : string) (s : string) : list string :=
  match s with
  | EmptyString =>
      match cur with
      | EmptyString => []
      | _ => [String.rev cur]
      end
  | String c s' =>
      if Ascii.eqb c LF then String.rev (String c cur) :: splitlines_keep EmptyString s'
      else splitlines_keep (String c cur) s'
  end.

(** [f.readlines()] on a file opened in text mode whose text is [s]. *)
Definition readlines (s : string) : list string :=
  splitlines_keep EmptyString (universal_newlines s).

Definition startswith (c : ascii) (s : string) : bool :=
  match s with
  | String c' _ => Ascii.eqb c' c
  | EmptyString => false
  end.

Fixpoint endswith (c : ascii) (s : string) : bool :=
  match s with
  | EmptyString => false
  | String c' EmptyString => Ascii.eqb c' c
  | String _ s' => endswith c s'
  end.

(** [c in s] for a character [c]. *)
Fixpoint contains (c : ascii) (s : string) : bool :=
  match s with
  | EmptyString => false
  | String c' s' => Ascii.eqb c' c || contains c s'
  end.

(** A Python string is true in a condition when it is not empty. *)
Definition truthy (s : string) : bool :=
  match s with
  | EmptyString => false
  | _ => true
  end.

End PyStr.

(** ** [posixpath] *)
Module PosixPath.

Definition sep : ascii := "/"%char.
Definition extsep : ascii := "."%char.

(** [os.path.join(a, b)]: an absolute [b] replaces [a]; otherwise the
    two are glued with one separator unless [a] is empty or already
    ends with one. *)
Definition join (a b : string) : string :=
  if PyStr.startswith sep b then b
  else if negb (PyStr.truthy a) || PyStr.endswith sep a then a +:+ b
  else a +:+ String sep b.

(** [s.rfind(c)]: the last index of [c] in [s], or [-1]. *)
Fixpoint rfind_from (c : ascii) (s : string) (i : Z) (last : Z) : Z :=
  match s with
  | EmptyString => last
  | String c' s' => rfind_from c s' (i + 1) (if Ascii.eqb c' c then i else last)
  end.

Definition rfind (c : ascii) (s : string) : Z := rfind_from c s 0 (-1).

(** [p[i:i+1] != extsep] for some [i] with [lo <= i < hi]. *)
Fixpoint has_non_dot (s : string) (i lo hi : Z) : bool :=
  match s with
  | EmptyString => false
  | String c s' =>
      ((lo <=? i)%Z && (i <? hi)%Z && negb (Ascii.eqb c extsep))
      || has_non_dot s' (i + 1) lo hi
  end.

(** [os.path.splitext(p)], following [genericpath._splitext]: the
    extension starts at the last dot of the last path component, unless
    that component consists of leading dots only up to it. *)
Definition splitext (p : string) : string * string :=
  let sepIndex := rfind sep p in
  let dotIndex := rfind extsep p in
  if (sepIndex <? dotIndex)%Z && has_non_dot p 0 (sepIndex + 1) dotIndex then
    (String.substring 0 (Z.to_nat dotIndex) p,
     String.substring (Z.to_nat dotIndex) (String.length p - Z.to_nat dotIndex) p)
  else (p, EmptyString).

End PosixPath.

(** ** [pysmi/reader/localfile.py] *)
Module LocalFile.

(** What [open(indexFile)] followed by [f.readlines()] comes to: the text
    of the file, an [OSError] ([IOError] is the same class), or the
    [UnicodeDecodeError] of a file whose bytes are not text in the
    encoding of the platform. *)
Inductive text_read : Type :=
| Text (s : string)
| TextOSError
| TextUndecodable.

(** The file system as [FileReader] observes it.  Each field is one of
    the calls the class makes; [None] stands for a raised [OSError]
    ([IOError] is the same class).  A file that cannot be read is one
    that [open] refuses: reading and closing a file that has been opened
    are taken to succeed.  The paths given to these calls are taken to be
    free of NUL characters: the root of the reader has none, and the
    names a directory listing returns never have one. *)
Record FileSystem : Type := {
  listdir : string -> option (list string);   (* os.listdir(path) *)
  isdir : string -> bool;                     (* os.path.isdir(d) *)
  isfile : string -> bool;                    (* os.path.isfile(f) *)
  path_exists : string -> bool;               (* os.path.exists(f) *)
  stat_mtime : string -> option Z;            (* os.stat(f)[8] *)
  read_binary : string -> option bytes;       (* open(f, mode='rb'): all of the file *)
  read_text : string -> text_read             (* open(f), all of the file as text *)
}.

(** What the low-level failure was: the [IOError] the reader raises
    itself on an oversized file, or a failure of the operating system. *)
Inductive io_error : Type :=
| TooLarge (f : string)      (* IOError('MIB %s too large' % f) *)
| OSError.

Inductive exn : Type :=
| PySmiError_directory (path : string) (cause : io_error)
    (* PySmiError('directory %s access error: %s') *)
| PySmiError_file (f : string) (cause : io_error)
    (* PySmiError('file %s access error: %s') *)
| PySmiReaderFileNotModifiedError (f : string)
    (* 'source MIB %s is older than needed' *)
| PySmiReaderFileNotFoundError (mibname : string)
    (* 'source MIB %s not found' *)
| UnboundLocalError (var : string)
| UnicodeDecodeError (indexFile : string)
    (* reading the index file as text; no [except] clause catches it *)
| ValueError (n : Z).
    (* fp.read(n): 'read length must be non-negative or -1'; not caught *)

(** How reading one file fails: with an exception that
    [except (OSError, IOError)] catches, or with one that it does not. *)
Inductive fetch_error : Type :=
| Caught (cause : io_error)
| Uncaught (e : exn).

Record MibInfo : Type := {
  path : string;
  file : string;
  name : string;
  mtime : Z
}.

(** An instance of [FileReader]: the fields [__init__] sets, and the
    class attributes the methods read through [self] ([ignoreErrors] and
    [maxMibSize] are inherited from [AbstractReader]).  [_mibIndex] is
    [None] until the index is loaded; it is never consulted before
    [_indexLoaded] is set, and is represented by the empty map until
    then. *)
Record FileReader : Type := {
  _path : string;
  _recursive : bool;
  _indexLoaded : bool;
  _mibIndex : gmap string string;
  useIndexFile : bool;
  indexFile : string;
  ignoreErrors : bool;
  maxMibSize : Z
}.

(** [FileReader(path, recursive)] with the class attributes given. *)
Definition init (path : string) (recursive useIndex ignore : bool) (maxSize : Z)
  : FileReader :=
  {| _path := path; _recursive := recursive; _indexLoaded := false;
     _mibIndex := ∅; useIndexFile := useIndex; indexFile := ".index";
     ignoreErrors := ignore; maxMibSize := maxSize |}.

Definition set_index (r : FileReader) (m : gmap string string) : FileReader :=
  {| _path := _path r; _recursive := _recursive r; _indexLoaded := true;
     _mibIndex := m; useIndexFile := useIndexFile r; indexFile := indexFile r;
     ignoreErrors := ignoreErrors r; maxMibSize := maxMibSize r |}.

(** [fp.read(n)]: at most [n] bytes, all of them when [n] is [-1];
    [None] is the [ValueError] raised for a length below [-1]. *)
Definition read_upto (n : Z) (data : bytes) : option bytes :=
  if (n <? -1)%Z then None
  else if (n <? 0)%Z then Some data
  else Some (firstn (Z.to_nat n) data).

(** One line of the index file:
    [key, _, value = line.partition(' ')], then both stripped. *)
Definition index_entry (line : string) : string * string :=
  let '(key, _, value) := PyStr.partition PyStr.SPACE line in
  (PyStr.strip key, PyStr.strip value).

(** The loop [for line in f.readlines(): mibIndex[key.strip()] = value.strip()]. *)
Fixpoint index_lines (lines : list string) (mibIndex : gmap string string)
  : gmap string string :=
  match lines with
  | [] => mibIndex
  | line :: rest =>
      let '(key, value) := index_entry line in
      index_lines rest (<[key := value]> mibIndex)
  end.

Section WithFileSystem.

Variable fs : FileSystem.

(** [pysmi.compat.decode] on [bytes]; on a [str] it is the identity. *)
Variable decode : bytes -> string.

(** [AbstractReader.getMibVariants], the fall-back policy. *)
Variable baseVariants : string -> list (string * string).

(** [getSubdirs(path, recursive, ignoreErrors)].  The recursion follows
    the directory listings, so it is bounded by [fuel]; [None] means the
    bound was reached.  The recursive call is
    [self.getSubdirs(d, recursive)]: [ignoreErrors] takes its default,
    [True]. *)
Fixpoint getSubdirs (fuel : nat) (path : string) (recursive ignore : bool)
  : option (result exn (list string)) :=
  if negb recursive then Some (Ok [path])
  else
    match fuel with
    | O => None
    | S fuel' =>
        match listdir fs path with
        | None =>
            if ignore then Some (Ok [path])
            else Some (Raise (PySmiError_directory path OSError))
        | Some subdirs =>
            (fix walk (ds : list string) (dirs : list string)
               : option (result exn (list string)) :=
               match ds with
               | [] => Some (Ok dirs)
               | d :: ds' =>
                   let d := PosixPath.join path d in
                   if isdir fs d then
                     match getSubdirs fuel' d recursive true with
                     | None => None
                     | Some (Raise e) => Some (Raise e)
                     | Some (Ok sub) => walk ds' (dirs ++ sub)%list
                     end
                   else walk ds' dirs
               end) subdirs [path]
        end
    end.

(** [loadIndex(indexFile)].  An [IOError] is caught and leaves the map
    empty; the [UnicodeDecodeError] of a file that is not text is not
    caught. *)
Definition loadIndex (indexFile : string) : result exn (gmap string string) :=
  if path_exists fs indexFile then
    match read_text fs indexFile with
    | Text text => Ok (index_lines (PyStr.readlines text) ∅)
    | TextOSError => Ok ∅
    | TextUndecodable => Raise (UnicodeDecodeError indexFile)
    end
  else Ok ∅.

(** [getMibVariants(mibname)]: what the call returns or raises, and the
    reader after it.  When [loadIndex] raises, neither [_mibIndex] nor
    [_indexLoaded] has been assigned. *)
Definition getMibVariants (r : FileReader) (mibname : string)
  : result exn (list (string * string)) * FileReader :=
  if useIndexFile r then
    match (if _indexLoaded r then Ok r
           else match loadIndex (PosixPath.join (_path r) (indexFile r)) with
                | Ok mibIndex => Ok (set_index r mibIndex)
                | Raise e => Raise e
                end) with
    | Raise e => (Raise e, r)
    | Ok r' =>
        match _mibIndex r' !! mibname with
        | Some indexed => (Ok [(mibname, indexed)], r')
        | None => (Ok (baseVariants mibname), r')
        end
    end
  else (Ok (baseVariants mibname), r).

(** The body of the [try] in [getData] and [dataGenerator], up to the
    size check: [os.stat], [open], [read(maxMibSize)], [close]. *)
Definition fetch_file (maxSize : Z) (f : string) : result fetch_error (Z * bytes) :=
  match stat_mtime fs f with
  | None => Raise (Caught OSError)
  | Some mt =>
      match read_binary fs f with
      | None => Raise (Caught OSError)
      | Some content =>
          match read_upto maxSize content with
          | None => Raise (Uncaught (ValueError maxSize))
          | Some mibData =>
              if (Z.of_nat (length mibData) =? maxSize)%Z then Raise (Caught (TooLarge f))
              else Ok (mt, mibData)
          end
      end
  end.

(** The inner loop of [getData] over the variants, in one directory.
    [None]: the loop ended without a [return] or a [raise]. *)
Fixpoint getData_variants (r : FileReader) (dir : string)
         (variants : list (string * string))
  : option (result exn (MibInfo * string)) :=
  match variants with
  | [] => None
  | (mibalias, mibfile) :: rest =>
      let f := PosixPath.join dir mibfile in
      if path_exists fs f && isfile fs f then
        match fetch_file (maxMibSize r) f with
        | Ok (mt, mibData) =>
            Some (Ok ({| path := "file://" +:+ f; file := mibfile;
                         name := mibalias; mtime := mt |}, decode mibData))
        | Raise (Caught cause) =>
            if negb (ignoreErrors r) then Some (Raise (PySmiError_file f cause))
            else Some (Raise (PySmiReaderFileNotModifiedError f))
        | Raise (Uncaught e) => Some (Raise e)
        end
      else getData_variants r dir rest
  end.

(** The outer loop of [getData] over the directories;
    [getMibVariants] is called anew for each of them. *)
Fixpoint getData_dirs (r : FileReader) (mibname : string) (dirs : list string)
  : result exn (MibInfo * string) * FileReader :=
  match dirs with
  | [] => (Raise (PySmiReaderFileNotFoundError mibname), r)
  | dir :: rest =>
      match getMibVariants r mibname with
      | (Raise e, r') => (Raise e, r')
      | (Ok variants, r') =>
          match getData_variants r' dir variants with
          | Some res => (res, r')
          | None => getData_dirs r' mibname rest
          end
      end
  end.

(** [getData(mibname)] *)
Definition getData (fuel : nat) (r : FileReader) (mibname : string)
  : option (result exn (MibInfo * string) * FileReader) :=
  match getSubdirs fuel (_path r) (_recursive r) (ignoreErrors r) with
  | None => None
  | Some (Raise e) => Some (Raise e, r)
  | Some (Ok dirs) => Some (getData_dirs r mibname dirs)
  end.

(** The search of [getData] once the variants are known: directories
    in order, the variants in order within each. *)
Fixpoint search (r : FileReader) (mibname : string)
         (variants : list (string * string)) (dirs : list string)
  : result exn (MibInfo * string) :=
  match dirs with
  | [] => Raise (PySmiReaderFileNotFoundError mibname)
  | dir :: rest =>
      match getData_variants r dir variants with
      | Some res => res
      | None => search r mibname variants rest
      end
  end.

(** A path [getData] would try to read. *)
Definition candidate (f : string) : bool := path_exists fs f && isfile fs f.

(** The entry [dataGenerator] yields for the name [mibfile] listed in
    [dir], once [mt] and [mibData] have been fetched. *)
Definition entry_of (dir mibfile : string) (mt : Z) (mibData : bytes)
  : MibInfo * string :=
  ({| path := "file://" +:+ PosixPath.join dir mibfile; file := mibfile;
      name := fst (PosixPath.splitext mibfile); mtime := mt |}, decode mibData).



(** The loop of [dataGenerator] over the listing of one directory.
    [f] is the generator's local variable [f] ([None] while it is not
    bound).  The result is the entries yielded, [f] after the loop, and
    the error that ended the loop, if one did. *)
Fixpoint dataGenerator_files (r : FileReader) (dir : string)
         (mibfiles : list string) (f : option string)
  : list (MibInfo * string) * option string * option fetch_error :=
  match mibfiles with
  | [] => ([], f, None)
  | mibfile :: rest =>
      let f' := PosixPath.join dir mibfile in
      if negb (isfile fs f') then dataGenerator_files r dir rest (Some f')
      else
        let mibname := fst (PosixPath.splitext mibfile) in
        match fetch_file (maxMibSize r) f' with
        | Raise cause => ([], Some f', Some cause)
        | Ok (mt, mibData) =>
            let '(yielded, f'', err) := dataGenerator_files r dir rest (Some f') in
            (({| path := "file://" +:+ f'; file := mibfile;
                 name := mibname; mtime := mt |}, decode mibData) :: yielded,
             f'', err)
        end
  end.

(** What the [except] clause of [dataGenerator] raises when errors are
    not ignored; its message formats [f]. *)
Definition access_error (f : option string) (cause : io_error) : exn :=
  match f with
  | Some p => PySmiError_file p cause
  | None => UnboundLocalError "f"
  end.

(** The loop of [dataGenerator] over the directories: the entries
    yielded, and the exception that ended the generator, if one did. *)
Fixpoint dataGenerator_dirs (r : FileReader) (dirs : list string) (f : option string)
  : list (MibInfo * string) * option exn :=
  match dirs with
  | [] => ([], None)
  | dir :: rest =>
      let '(yielded, f', err) :=
        match listdir fs dir with
        | None => ([], f, Some (Caught OSError))
        | Some mibfiles => dataGenerator_files r dir mibfiles f
        end in
      match err with
      | Some (Caught cause) =>
          if negb (ignoreErrors r) then (yielded, Some (access_error f' cause))
          else
            let '(later, e) := dataGenerator_dirs r rest f' in
            ((yielded ++ later)%list, e)
      | Some (Uncaught e) => (yielded, Some e)
      | None =>
          let '(later, e) := dataGenerator_dirs r rest f' in
          ((yielded ++ later)%list, e)
      end
  end.

(** [dataGenerator()], run to its end. *)
Definition dataGenerator (fuel : nat) (r : FileReader)
  : option (list (MibInfo * string) * option exn) :=
  match getSubdirs fuel (_path r) (_recursive r) (ignoreErrors r) with
  | None => None
  | Some (Raise e) => Some ([], Some e)
  | Some (Ok dirs) => Some (dataGenerator_dirs r dirs None)
  end.

End WithFileSystem.

End LocalFile.

(** ** [pysmi/writer/pyfile.py] *)
Module PyFile.

(** [importlib.machinery.SOURCE_SUFFIXES] *)
Definition SOURCE_SUFFIXES : list string := [".py"].

(** The part of the file system [PyFileWriter] changes: the regular
    files with their contents, and the directories. *)
Record Store : Type := {
  files : gmap string bytes;
  dirs : gset string
}.

Definition with_files (st : Store) (m : gmap string bytes) : Store :=
  {| files := m; dirs := dirs st |}.

(** The three ways [py_compile.compile(pyfile, doraise=True)] can end,
    as [putData] tells them apart: it wrote the byte-code file [cfile],
    it raised [SyntaxError] or [py_compile.PyCompileError], or it raised
    another [Exception]. *)
Inductive compile_outcome : Type :=
| Compiled (cfile : string) (code : bytes)
| CompileRejected
| CompileCrashed.

(** What the environment does during one call of [putData]: which
    system calls fail with [OSError], how many directories a failing
    [os.makedirs] has made by then, the file names [tempfile.mkstemp]
    tries in turn, and how the compilation ends. *)
Record Env : Type := {
  makedirs_fails : bool;
  makedirs_made : nat;
  mkstemp_fails : bool;
  tmp_names : list string;
  write_fails : bool;
  close_fails : bool;
  rename_fails : bool;
  unlink_fails : bool;
  compile_result : compile_outcome
}.

(** The exception the [try] around the write caught. *)
Inductive write_error : Type :=
| OSError
| UnicodeEncodeError.

Inductive exn : Type :=
| PySmiWriterError_directory (path : string)
    (* "failure creating destination directory ..." *)
| PySmiWriterError_writing (pyfile : string) (cause : write_error)
    (* "failure writing file ...", file=pyfile *)
| PySmiWriterError_compiling (pyfile : string) (mibname : string)
    (* "failure compiling ...", file=mibname *)
| OSError_unlink (path : string)
    (* os.unlink failing inside a handler; nothing catches it *)
| ValueError.
    (* 'embedded null byte': a system call given a path with a NUL
       character; no [except] clause of [putData] catches it *)

(** How the [try] around the write is left on a failure: with an
    exception that [except (OSError, UnicodeEncodeError)] catches, or with
    one that it does not. *)
Inductive try_exit : Type :=
| Caught (cause : write_error)
| Uncaught (e : exn).

(** An instance of [PyFileWriter]. *)
Record PyFileWriter : Type := {
  _path : string;
  pyCompile : bool;
  pyOptimizationLevel : Z
}.

(** Whether the store holds something at [p]: [os.access(p, os.F_OK)],
    and [os.path.exists(p)] for a path free of NUL characters. *)
Definition path_exists (st : Store) (p : string) : bool :=
  bool_decide (is_Some (files st !! p)) || bool_decide (p ∈ dirs st).

(** [os.path.exists(p)]: false for a path with a NUL character, which no
    system call accepts. *)
Definition os_path_exists (st : Store) (p : string) : bool :=
  negb (PyStr.contains PyStr.NUL p) && path_exists st p.

(** The prefixes of [p] that end just before a separator, nearest the
    root first; [acc] is the text read so far, reversed. *)
Fixpoint parents (acc : string) (p : string) : list string :=
  match p with
  | EmptyString => []
  | String c p' =>
      if Ascii.eqb c PosixPath.sep && PyStr.truthy acc
      then String.rev acc :: parents (String c acc) p'
      else parents (String c acc) p'
  end.

(** [os.makedirs(p)]: [p] and the directories leading to it. *)
Definition makedirs (st : Store) (p : string) : Store :=
  {| files := files st; dirs := dirs st ∪ list_to_set (parents EmptyString p) ∪ {[ p ]} |}.

(** The directories [os.makedirs(p)] makes where they are missing, in the
    order in which it makes them: those leading to [p], nearest the root
    first, then [p] itself. *)
Definition makedirs_chain (p : string) : list string :=
  (parents EmptyString p ++ [p])%list.

(** How many paths at the head of [ds] have no NUL character. *)
Fixpoint nul_free_prefix (ds : list string) : nat :=
  match ds with
  | [] => 0%nat
  | d :: ds' => if PyStr.contains PyStr.NUL d then 0%nat else S (nul_free_prefix ds')
  end.

Definition with_dirs (st : Store) (ds : list string) : Store :=
  {| files := files st; dirs := dirs st ∪ list_to_set ds |}.

(** The comment block of [putData]:
    ["#\n" + "".join(["# %s\n" % x for x in comments]) + "#\n" + data]. *)
Definition with_comments (comments : list string) (data : string) : string :=
  match comments with
  | [] => data
  | _ =>
      let nl := String PyStr.LF "" in
      "#" +:+ nl
      +:+ String.concat "" (map (fun x => "# " +:+ x +:+ nl) comments)
      +:+ "#" +:+ nl +:+ data
  end.

(** The destination: [os.path.join(self._path, mibname) + SOURCE_SUFFIXES[0]]. *)
Definition pyfile_of (w : PyFileWriter) (mibname : string) : string :=
  PosixPath.join (_path w) mibname +:+ nth 0 SOURCE_SUFFIXES "".

(** [tempfile.mkstemp(dir=d)]: the first of the names tried that does
    not exist yet is created, empty. *)
Definition mkstemp (env : Env) (st : Store) (d : string) : option (string * Store) :=
  if mkstemp_fails env || negb (bool_decide (d ∈ dirs st)) then None
  else
    match List.find (fun t => negb (path_exists st t))
                    (map (PosixPath.join d) (tmp_names env)) with
    | None => None
    | Some tfile => Some (tfile, with_files st (<[tfile := []]> (files st)))
    end.

Section WithCodec.

(** [pysmi.compat.encode]; [None] is [UnicodeEncodeError].  On a
    [str], [pysmi.compat.decode] is the identity. *)
Variable encode : string -> option bytes.

(** The body of the [try] in [putData]: [mkstemp], [os.write],
    [os.close], [os.rename].  The result is the store afterwards,
    [tfile] ([None] as long as [mkstemp] has not returned), and the
    exception that ended the [try], if any.  [mkstemp] and [os.rename]
    raise [ValueError] for a directory or a destination with a NUL
    character, before anything else is tried; the names [mkstemp] makes
    up have none. *)
Definition write_file (env : Env) (st : Store) (d pyfile data : string)
  : Store * option string * option try_exit :=
  if PyStr.contains PyStr.NUL d then (st, None, Some (Uncaught ValueError))
  else
    match mkstemp env st d with
    | None => (st, None, Some (Caught OSError))
    | Some (tfile, st1) =>
        match encode data with
        | None => (st1, Some tfile, Some (Caught UnicodeEncodeError))
        | Some raw =>
            if write_fails env then (st1, Some tfile, Some (Caught OSError))
            else
              let st2 := with_files st1 (<[tfile := raw]> (files st1)) in
              if close_fails env then (st2, Some tfile, Some (Caught OSError))
              else if PyStr.contains PyStr.NUL pyfile
              then (st2, Some tfile, Some (Uncaught ValueError))
              else if rename_fails env || bool_decide (pyfile ∈ dirs st2)
              then (st2, Some tfile, Some (Caught OSError))
              else (with_files st2 (<[pyfile := raw]> (delete tfile (files st2))),
                    Some tfile, None)
        end
    end.

(** The first statement of [putData] after the dry-run test:
    [if not os.path.exists(self._path): os.makedirs(self._path)] inside
    its [try ... except OSError].  [os.makedirs] makes the missing
    directories of the chain in order.  When it fails with [OSError] it
    has made [makedirs_made] of them at most, never the last, and
    [putData] raises its directory error.  At the first path of the
    chain with a NUL character [os.mkdir] raises [ValueError], which
    [except OSError] does not catch.  Either way the directories made by
    then stay. *)
Definition prepare (w : PyFileWriter) (env : Env) (st : Store) : Store * option exn :=
  if os_path_exists st (_path w) then (st, None)
  else
    let chain := makedirs_chain (_path w) in
    let accepted := nul_free_prefix chain in
    let made := Nat.min (makedirs_made env) (length (parents EmptyString (_path w))) in
    if makedirs_fails env && (made <? accepted)%nat
    then (with_dirs st (take made chain), Some (PySmiWriterError_directory (_path w)))
    else if (accepted <? length chain)%nat
    then (with_dirs st (take accepted chain), Some ValueError)
    else (makedirs st (_path w), None).

(** [if p and os.access(p, os.F_OK): os.unlink(p)], then [raise e]. *)
Definition unlink_and_raise (env : Env) (st : Store) (p : option string) (e : exn)
  : Store * result exn unit :=
  match p with
  | Some t =>
      if PyStr.truthy t && path_exists st t then
        if unlink_fails env then (st, Raise (OSError_unlink t))
        else (with_files st (delete t (files st)), Raise e)
      else (st, Raise e)
  | None => (st, Raise e)
  end.

(** The [if self.pyCompile:] block. *)
Definition compile_step (w : PyFileWriter) (env : Env) (st : Store)
           (pyfile mibname : string) : Store * result exn unit :=
  if pyCompile w then
    match compile_result env with
    | Compiled cfile code => (with_files st (<[cfile := code]> (files st)), Ok tt)
    | CompileRejected => (st, Ok tt)
    | CompileCrashed =>
        unlink_and_raise env st (Some pyfile) (PySmiWriterError_compiling pyfile mibname)
    end
  else (st, Ok tt).

(** [putData(mibname, data, comments, dryRun)]: the store afterwards
    and the outcome of the call. *)
Definition putData (w : PyFileWriter) (env : Env) (st : Store)
           (mibname data : string) (comments : list string) (dryRun : bool)
  : Store * result exn unit :=
  if dryRun then (st, Ok tt)
  else
    match prepare w env st with
    | (st0, Some e) => (st0, Raise e)
    | (st0, None) =>
        let data := with_comments comments data in
        let pyfile := pyfile_of w mibname in
        match write_file env st0 (_path w) pyfile data with
        | (st1, tfile, Some (Caught cause)) =>
            unlink_and_raise env st1 tfile (PySmiWriterError_writing pyfile cause)
        | (st1, _, Some (Uncaught e)) => (st1, Raise e)
        | (st1, _, None) => compile_step w env st1 pyfile mibname
        end
    end.

(** [getData(filename)] *)
Definition getData (w : PyFileWriter) (filename : string) : string := "".

End WithCodec.

End PyFile.

(** ** The claims in the specification's own words *)
Module Claimed.

(** "First whitespace run is the separator": the first
    whitespace-delimited token, and the rest of the line trimmed. *)
Fixpoint token (s : string) : string :=
  match s with
  | EmptyString => EmptyString
  | String c s' => if PyStr.isspace c then EmptyString else String c (token s')
  end.

Fixpoint after_token (s : string) : string :=
  match s with
  | EmptyString => EmptyString
  | String c s' => if PyStr.isspace c then s else after_token s'
  end.

Definition index_entry (line : string) : string * string :=
  let line := PyStr.lstrip line in
  (token line, PyStr.strip (after_token line)).


End Claimed.

(** ** Concrete file systems *)
Module Scenario.

Inductive node : Type :=
| RegularFile (mt : Z) (content : option bytes)   (* [None]: it cannot be read *)
| NotText (mt : Z) (content : bytes)              (* a regular file that is not text *)
| Directory (listing : option (list string))      (* [None]: it cannot be listed *)
| Special.                                        (* a socket, a device, ... *)

Definition lookup_node (tree : list (string * node)) (p : string) : option node :=
  snd <$> List.find (fun e => String.eqb (fst e) p) tree.

Definition fs_of (tree : list (string * node)) : LocalFile.FileSystem :=
  {| LocalFile.listdir p :=
       match lookup_node tree p with
       | Some (Directory l) => l
       | _ => None
       end;
     LocalFile.isdir p :=
       match lookup_node tree p with
       | Some (Directory _) => true
       | _ => false
       end;
     LocalFile.isfile p :=
       match lookup_node tree p with
       | Some (RegularFile _ _) | Some (NotText _ _) => true
       | _ => false
       end;
     LocalFile.path_exists p := bool_decide (is_Some (lookup_node tree p));
     LocalFile.stat_mtime p :=
       match lookup_node tree p with
       | Some (RegularFile mt _) | Some (NotText mt _) => Some mt
       | Some _ => Some 0%Z
       | None => None
       end;
     LocalFile.read_binary p :=
       match lookup_node tree p with
       | Some (RegularFile _ c) => c
       | Some (NotText _ c) => Some c
       | _ => None
       end;
     LocalFile.read_text p :=
       match lookup_node tree p with
       | Some (RegularFile _ (Some c)) => LocalFile.Text (string_of_list_byte c)
       | Some (NotText _ _) => LocalFile.TextUndecodable
       | _ => LocalFile.TextOSError
       end |}.

Definition text (s : string) : option bytes := Some (list_byte_of_string s).

(** The fall-back policy used in the scenarios: the name with the
    suffixes [.txt] and [.mib]. *)
Definition two_suffixes (mibname : string) : list (string * string) :=
  [(mibname, mibname +:+ ".txt"); (mibname, mibname +:+ ".mib")].

(** [/mibs/M.txt] exists but cannot be read; [/mibs/M.mib] is fine. *)
Definition unreadable_first : LocalFile.FileSystem :=
  fs_of [("/mibs", Directory (Some ["M.txt"; "M.mib"]));
         ("/mibs/M.txt", RegularFile 10 None);
         ("/mibs/M.mib", RegularFile 20 (text "M DEFINITIONS ::= BEGIN END"))].

(** [/mibs/a] is a directory that cannot be listed. *)
Definition unlistable_subdir : LocalFile.FileSystem :=
  fs_of [("/mibs", Directory (Some ["a"; "b"]));
         ("/mibs/a", Directory None);
         ("/mibs/b", Directory (Some []))].

(** Two modules, a socket and the index file in one directory. *)
Definition with_index : LocalFile.FileSystem :=
  fs_of [("/mibs", Directory (Some ["x.txt"; "y.txt"; "sock"; ".index"]));
         ("/mibs/x.txt", RegularFile 1 (text "X"));
         ("/mibs/y.txt", RegularFile 2 (text "Y"));
         ("/mibs/sock", Special);
         ("/mibs/.index", RegularFile 3 (text "FOO-MIB foo.mib"))].

(** An index file whose only line separates key and value by a tab. *)
Definition tab_line : string :=
  "FOO" +:+ String PyStr.TAB "foo.mib" +:+ String PyStr.LF "".

Definition tab_index : LocalFile.FileSystem :=
  fs_of [("/mibs", Directory (Some [".index"]));
         ("/mibs/.index", RegularFile 3 (text tab_line))].

(** A module of four bytes. *)
Definition four_bytes : LocalFile.FileSystem :=
  fs_of [("/mibs", Directory (Some ["M.txt"]));
         ("/mibs/M.txt", RegularFile 7 (text "ABCD"))].

Definition reader (recursive useIndex ignore : bool) (maxSize : Z) : LocalFile.FileReader :=
LocalFile.init "/mibs" recursive useIndex ignore maxSize.

(** A writer on [/out], and stores with and without an earlier [mod.py]. *)
Definition writer : PyFile.PyFileWriter :=
  {| PyFile._path := "/out"; PyFile.pyCompile := true; PyFile.pyOptimizationLevel := (-1)%Z |}.

Definition to_bytes (s : string) : option bytes := Some (list_byte_of_string s).

Definition empty_store : PyFile.Store :=
  {| PyFile.files := ∅; PyFile.dirs := ∅ |}.

Definition earlier_store : PyFile.Store :=
  {| PyFile.files := {[ "/out/mod.py" := list_byte_of_string "old" ]};
     PyFile.dirs := {[ "/out" ]} |}.

(** An environment in which nothing fails, and two in which one step does. *)
Definition calm (outcome : PyFile.compile_outcome) : PyFile.Env :=
  {| PyFile.makedirs_fails := false; PyFile.makedirs_made := 0;
     PyFile.mkstemp_fails := false;
     PyFile.tmp_names := ["tmpk3v9_x1a"]; PyFile.write_fails := false;
     PyFile.close_fails := false; PyFile.rename_fails := false;
     PyFile.unlink_fails := false; PyFile.compile_result := outcome |}.

Definition bytecode : PyFile.compile_outcome :=
  PyFile.Compiled "/out/__pycache__/mod.cpython-312.pyc" (list_byte_of_string "code").

Definition rename_failing : PyFile.Env :=
  {| PyFile.makedirs_fails := false; PyFile.makedirs_made := 0;
     PyFile.mkstemp_fails := false;
     PyFile.tmp_names := ["tmpk3v9_x1a"]; PyFile.write_fails := false;
     PyFile.close_fails := false; PyFile.rename_fails := true;
     PyFile.unlink_fails := false; PyFile.compile_result := bytecode |}.

End Scenario.

(** ** Further concrete cases *)
Module Cases.

(** A tree three directories deep, with a file beside the first
    subdirectory. *)
Definition nested : LocalFile.FileSystem :=
  Scenario.fs_of [("/mibs", Scenario.Directory (Some ["a"; "readme.txt"]));
                  ("/mibs/a", Scenario.Directory (Some ["b"]));
                  ("/mibs/a/b", Scenario.Directory (Some []));
                  ("/mibs/readme.txt", Scenario.RegularFile 5 (Scenario.text "hello"))].

(** The height of a directory of [nested] above the leaves. *)
Definition nested_rank (p : string) : nat :=
  if String.eqb p "/mibs" then 2 else if String.eqb p "/mibs/a" then 1 else 0.


(** Every line of [s], the lines being ended by LF, begins with [#];
    [at_start] tells whether [s] starts at the beginning of a line. *)
Fixpoint lines_commented (at_start : bool) (s : string) : bool :=
  match s with
  | EmptyString => true
  | String c s' =>
      (if at_start then Ascii.eqb c "#" else true)
      && lines_commented (Ascii.eqb c PyStr.LF) s'
  end.

(** An environment whose clean-up fails after a failed rename. *)
Definition unlink_failing : PyFile.Env :=
  {| PyFile.makedirs_fails := false; PyFile.makedirs_made := 0;
     PyFile.mkstemp_fails := false;
     PyFile.tmp_names := ["tmpk3v9_x1a"]; PyFile.write_fails := false;
     PyFile.close_fails := false; PyFile.rename_fails := true;
     PyFile.unlink_fails := true; PyFile.compile_result := PyFile.CompileRejected |}.

(** An environment in which the compilation crashes and the removal of
    the destination fails. *)
Definition crash_unlink_failing : PyFile.Env :=
  {| PyFile.makedirs_fails := false; PyFile.makedirs_made := 0;
     PyFile.mkstemp_fails := false;
     PyFile.tmp_names := ["tmpk3v9_x1a"]; PyFile.write_fails := false;
     PyFile.close_fails := false; PyFile.rename_fails := false;
     PyFile.unlink_fails := true; PyFile.compile_result := PyFile.CompileCrashed |}.

(** An environment in which [os.makedirs] fails after it has made one
    directory, and a writer whose root lies three directories deep. *)
Definition makedirs_failing : PyFile.Env :=
  {| PyFile.makedirs_fails := true; PyFile.makedirs_made := 1;
     PyFile.mkstemp_fails := false;
     PyFile.tmp_names := ["tmpk3v9_x1a"]; PyFile.write_fails := false;
     PyFile.close_fails := false; PyFile.rename_fails := false;
     PyFile.unlink_fails := false; PyFile.compile_result := PyFile.CompileRejected |}.

Definition deep_writer : PyFile.PyFileWriter :=
  {| PyFile._path := "/srv/out/py"; PyFile.pyCompile := true;
     PyFile.pyOptimizationLevel := (-1)%Z |}.


(** An index file of three lines, the third for the key of the first. *)
Definition three_lines : LocalFile.FileSystem :=
  Scenario.fs_of
    [("/mibs", Scenario.Directory (Some [".index"]));
     ("/mibs/.index",
      Scenario.RegularFile
        3 (Scenario.text ("A-MIB a.mib" +:+ String PyStr.LF ""
                          +:+ "B-MIB b.mib" +:+ String PyStr.LF ""
                          +:+ "A-MIB   a2.mib" +:+ String PyStr.LF "")))].

(** An index file that is not text. *)
Definition binary_index : LocalFile.FileSystem :=
  Scenario.fs_of
    [("/mibs", Scenario.Directory (Some [".index"; "M.txt"]));
     ("/mibs/.index", Scenario.NotText 3 [xff; x20; x78]);
     ("/mibs/M.txt", Scenario.RegularFile 7 (Scenario.text "ABCD"))].

End Cases.

(** * Properties of the reader *)

Section ReaderProperties.

Import LocalFile.

Variable fs : FileSystem.
Variable decode : bytes -> string.
Variable baseVariants : string -> list (string * string).

(** ** The index and the variants *)

Lemma getMibVariants_config (r r' : FileReader) mibname res :
  getMibVariants fs baseVariants r mibname = (res, r') ->
  maxMibSize r' = maxMibSize r /\ ignoreErrors r' = ignoreErrors r
  /\ useIndexFile r' = useIndexFile r /\ _path r' = _path r.
Proof.
  unfold getMibVariants.
  destruct (useIndexFile r) eqn:Hu; [| intros [= <- <-]; auto].
  destruct (_indexLoaded r); [| destruct (loadIndex fs _)]; simpl;
    repeat case_match; intros [= <- <-]; simpl; auto.
Qed.

(** A second call finds the index loaded and answers the same; after a
    call that raised, the reader is as before and the call raises again. *)
Lemma getMibVariants_stable (r r' : FileReader) mibname res :
  getMibVariants fs baseVariants r mibname = (res, r') ->
  getMibVariants fs baseVariants r' mibname = (res, r').
Proof.
  unfold getMibVariants.
  destruct (useIndexFile r) eqn:Hu.
  - destruct (_indexLoaded r) eqn:Hl.
    + destruct (_mibIndex r !! mibname) eqn:Hm; intros [= <- <-];
        rewrite Hu, Hl, Hm; reflexivity.
    + destruct (loadIndex fs _) as [m | e] eqn:Hload.
      * simpl. destruct (m !! mibname) eqn:Hm; intros [= <- <-];
          simpl; rewrite Hu; simpl; rewrite Hm; reflexivity.
      * intros [= <- <-]. rewrite Hu, Hl, Hload. reflexivity.
  - intros [= <- <-]. rewrite Hu. reflexivity.
Qed.

(** ** The search of [getData] *)

Lemma getData_variants_ext (r1 r2 : FileReader) dir vs :
  maxMibSize r1 = maxMibSize r2 -> ignoreErrors r1 = ignoreErrors r2 ->
  getData_variants fs decode r1 dir vs = getData_variants fs decode r2 dir vs.
Proof.
  intros Hm Hi. induction vs as [| [a f] vs IH]; simpl; [reflexivity |].
  rewrite Hm, Hi, IH. reflexivity.
Qed.

Lemma search_ext (r1 r2 : FileReader) mibname vs dirs :
  maxMibSize r1 = maxMibSize r2 -> ignoreErrors r1 = ignoreErrors r2 ->
  search fs decode r1 mibname vs dirs = search fs decode r2 mibname vs dirs.
Proof.
  intros Hm Hi. induction dirs as [| d ds IH]; simpl; [reflexivity |].
  rewrite (getData_variants_ext r1 r2), IH by assumption. reflexivity.
Qed.

(** The loop of [getData] is the search with the variants of the first
    call of [getMibVariants]. *)
Lemma getData_dirs_search mibname vs (ds : list string) :
  forall (d : string) (r r' : FileReader),
    getMibVariants fs baseVariants r mibname = (Ok vs, r') ->
    getData_dirs fs decode baseVariants r mibname (d :: ds)
    = (search fs decode r mibname vs (d :: ds), r').
Proof.
  induction ds as [| d' ds IH]; intros d r r' Hv.
  - simpl. rewrite Hv.
    destruct (getMibVariants_config _ _ _ _ Hv) as (Hm & Hi & _).
    rewrite (getData_variants_ext r' r) by assumption.
    destruct (getData_variants fs decode r d vs); reflexivity.
  - change (getData_dirs fs decode baseVariants r mibname (d :: d' :: ds))
      with (match getMibVariants fs baseVariants r mibname with
            | (Raise e, r1) => (Raise e, r1)
            | (Ok variants, r1) =>
                match getData_variants fs decode r1 d variants with
                | Some res => (res, r1)
                | None => getData_dirs fs decode baseVariants r1 mibname (d' :: ds)
                end
            end).
    rewrite Hv.
    destruct (getMibVariants_config _ _ _ _ Hv) as (Hm & Hi & _).
    rewrite (IH d' r' r' (getMibVariants_stable _ _ _ _ Hv)).
    rewrite (getData_variants_ext r' r) by assumption.
    rewrite (search_ext r' r) by assumption.
    change (search fs decode r mibname vs (d :: d' :: ds))
      with (match getData_variants fs decode r d vs with
            | Some res => res
            | None => search fs decode r mibname vs (d' :: ds)
            end).
    destruct (getData_variants fs decode r d vs); reflexivity.
Qed.

(** Variants that name no existing regular file are passed over. *)
Lemma getData_variants_skip (r : FileReader) dir pre rest :
  Forall (fun v => candidate fs (PosixPath.join dir (snd v)) = false) pre ->
  getData_variants fs decode r dir (pre ++ rest)%list
  = getData_variants fs decode r dir rest.
Proof.
  induction 1 as [| [a f] pre Hc _ IH]; simpl; [reflexivity |].
  unfold candidate in Hc. simpl in Hc. rewrite Hc. exact IH.
Qed.

Lemma getData_variants_none (r : FileReader) dir vs :
  Forall (fun v => candidate fs (PosixPath.join dir (snd v)) = false) vs ->
  getData_variants fs decode r dir vs = None.
Proof.
  intros H. rewrite <- (app_nil_r vs). rewrite getData_variants_skip by assumption.
  reflexivity.
Qed.

(** Directories in which no variant exists are passed over. *)
Lemma search_skip (r : FileReader) mibname vs before dirs :
  Forall (fun d => Forall (fun v => candidate fs (PosixPath.join d (snd v)) = false) vs)
         before ->
  search fs decode r mibname vs (before ++ dirs)%list
  = search fs decode r mibname vs dirs.
Proof.
  induction 1 as [| d before Hd _ IH]; simpl; [reflexivity |].
  rewrite getData_variants_none by assumption. exact IH.
Qed.

(** ** Reading one file under the size cap *)

(** What [fp.read(n)] returns for a length it accepts. *)
Lemma read_upto_accepted (n : Z) (content : bytes) :
  (-1 <= n)%Z ->
  exists mibData,
    read_upto n content = Some mibData
    /\ Z.of_nat (length mibData)
       = (if (n <? 0)%Z then Z.of_nat (length content)
          else Z.min n (Z.of_nat (length content)))
    /\ ((n < 0)%Z \/ (Z.of_nat (length content) <= n)%Z -> mibData = content).
Proof.
  intros Hn. unfold read_upto.
  destruct (Z.ltb_spec n (-1)); [lia |].
  destruct (Z.ltb_spec n 0).
  - exists content. auto.
  - exists (firstn (Z.to_nat n) content). split; [reflexivity |].
    split; [rewrite length_firstn; lia |].
    intros [Hneg | Hle]; [lia |]. apply firstn_all2. lia.
Qed.

Lemma fetch_file_full (n : Z) f mt (content : bytes) :
  stat_mtime fs f = Some mt -> read_binary fs f = Some content ->
  (Z.of_nat (length content) < n)%Z ->
  fetch_file fs n f = Ok (mt, content).
Proof.
  intros Hs Hr Hlt. unfold fetch_file. rewrite Hs, Hr.
  destruct (read_upto_accepted n content) as (d & -> & Hl & Hall); [lia |].
  destruct (Z.ltb_spec n 0) as [Hn | Hn]; [lia |].
  destruct (Z.eqb_spec (Z.of_nat (length d)) n) as [He | He]; [lia |].
  rewrite Hall by lia. reflexivity.
Qed.

Lemma fetch_file_at_cap (n : Z) f mt (content : bytes) :
  stat_mtime fs f = Some mt -> read_binary fs f = Some content ->
  Z.of_nat (length content) = n ->
  fetch_file fs n f = Raise (Caught (TooLarge f)).
Proof.
  intros Hs Hr Heq. unfold fetch_file. rewrite Hs, Hr.
  destruct (read_upto_accepted n content) as (d & -> & Hl & _); [lia |].
  destruct (Z.ltb_spec n 0) as [Hn | Hn]; [lia |].
  destruct (Z.eqb_spec (Z.of_nat (length d)) n) as [He | He]; [| lia].
  reflexivity.
Qed.

(** C3. A candidate file that [getData] reads is rejected when it holds
    exactly [maxMibSize] bytes: reading it raises the too-large error and
    [getData] ends with an exception, returning no part of the file.  When
    it holds fewer bytes, [getData] returns the whole content, decoded.
    The candidate is the first existing regular file in the search order
    (directories first, variants within). *)
Theorem getData_size_cap
        (fuel : nat) (r r' : FileReader) (mibname : string)
        (dirs before after : list string) (dir : string)
        (vs pre post : list (string * string)) (mibalias mibfile : string)
        (mt : Z) (content : bytes) :
  getSubdirs fs fuel (_path r) (_recursive r) (ignoreErrors r) = Some (Ok dirs) ->
  getMibVariants fs baseVariants r mibname = (Ok vs, r') ->
  dirs = (before ++ dir :: after)%list ->
  vs = (pre ++ (mibalias, mibfile) :: post)%list ->
  Forall (fun d => Forall (fun v => candidate fs (PosixPath.join d (snd v)) = false) vs)
         before ->
  Forall (fun v => candidate fs (PosixPath.join dir (snd v)) = false) pre ->
  candidate fs (PosixPath.join dir mibfile) = true ->
  stat_mtime fs (PosixPath.join dir mibfile) = Some mt ->
  read_binary fs (PosixPath.join dir mibfile) = Some content ->
  (Z.of_nat (length content) = maxMibSize r ->
   fetch_file fs (maxMibSize r) (PosixPath.join dir mibfile)
   = Raise (Caught (TooLarge (PosixPath.join dir mibfile)))
   /\ getData fs decode baseVariants fuel r mibname
      = Some (Raise (if ignoreErrors r
                     then PySmiReaderFileNotModifiedError (PosixPath.join dir mibfile)
                     else PySmiError_file (PosixPath.join dir mibfile)
                                          (TooLarge (PosixPath.join dir mibfile))),
              r'))
  /\ ((Z.of_nat (length content) < maxMibSize r)%Z ->
      getData fs decode baseVariants fuel r mibname
      = Some (Ok ({| path := "file://" +:+ PosixPath.join dir mibfile;
                     file := mibfile; name := mibalias; mtime := mt |},
                  decode content), r')).
Proof.
  intros Hsub Hv -> -> Hbefore Hpre Hc Hs Hr.
  assert (Hgo : getData fs decode baseVariants fuel r mibname
                = Some (match fetch_file fs (maxMibSize r) (PosixPath.join dir mibfile) with
                        | Ok (mt0, mibData) =>
                            Ok ({| path := "file://" +:+ PosixPath.join dir mibfile;
                                   file := mibfile; name := mibalias; mtime := mt0 |},
                                decode mibData)
                        | Raise (Caught cause) =>
                            if negb (ignoreErrors r)
                            then Raise (PySmiError_file (PosixPath.join dir mibfile) cause)
                            else Raise (PySmiReaderFileNotModifiedError
                                          (PosixPath.join dir mibfile))
                        | Raise (Uncaught e) => Raise e
                        end, r')).
  { unfold getData. rewrite Hsub.
    assert (Hne : exists d0 ds0, (before ++ dir :: after)%list = d0 :: ds0)
      by (destruct before; simpl; eauto).
    destruct Hne as (d0 & ds0 & Hne). rewrite Hne.
    rewrite (getData_dirs_search _ _ _ _ _ _ Hv). rewrite <- Hne.
    rewrite search_skip by assumption. simpl.
    rewrite getData_variants_skip by assumption. simpl.
    unfold candidate in Hc. rewrite Hc.
    destruct (fetch_file fs (maxMibSize r) (PosixPath.join dir mibfile))
      as [[mt0 d] | [c | e]]; [reflexivity | | reflexivity].
    destruct (ignoreErrors r); reflexivity. }
  split.
  - intros Heq. rewrite Hgo.
    rewrite (fetch_file_at_cap _ _ _ _ Hs Hr Heq).
    split; [reflexivity |]. destruct (ignoreErrors r); reflexivity.
  - intros Hlt. rewrite Hgo.
    rewrite (fetch_file_full _ _ _ _ Hs Hr Hlt). reflexivity.
Qed.

(** C5. With the index in use, a name the loaded index maps to a file is
    resolved to exactly that one pair, whatever the fall-back policy is;
    only a name absent from the index is passed to the fall-back policy.
    The index is the one read from the index file on first use. *)
Theorem getMibVariants_indexed (r r' : FileReader) (mibname : string)
        (vs : list (string * string)) :
  useIndexFile r = true ->
  getMibVariants fs baseVariants r mibname = (Ok vs, r') ->
  _indexLoaded r' = true
  /\ (if _indexLoaded r then Ok (_mibIndex r)
      else loadIndex fs (PosixPath.join (_path r) (indexFile r))) = Ok (_mibIndex r')
  /\ (forall indexed, _mibIndex r' !! mibname = Some indexed ->
      vs = [(mibname, indexed)]
      /\ forall other, getMibVariants fs other r mibname = (Ok [(mibname, indexed)], r'))
  /\ (_mibIndex r' !! mibname = None -> vs = baseVariants mibname).
Proof.
  intros Hu. unfold getMibVariants. rewrite Hu.
  destruct (_indexLoaded r) eqn:Hl.
  - destruct (_mibIndex r !! mibname) eqn:Hm; intros [= <- <-]; rewrite Hm;
      repeat split; try assumption; try discriminate; try congruence.
  - destruct (loadIndex fs (PosixPath.join (_path r) (indexFile r))) as [m | e];
      [| discriminate].
    simpl. destruct (m !! mibname) eqn:Hm;
      intros [= <- <-]; simpl; rewrite Hm;
      repeat split; try discriminate; try congruence.
Qed.

End ReaderProperties.

(** ** The size cap and the index on concrete directories *)

Lemma getData_size_cap_witness :
  LocalFile.getData Scenario.four_bytes string_of_list_byte Scenario.two_suffixes 1
                    (Scenario.reader false false true 4) "M"
  = Some (Raise (LocalFile.PySmiReaderFileNotModifiedError "/mibs/M.txt"),
          Scenario.reader false false true 4)
  /\ LocalFile.getData Scenario.four_bytes string_of_list_byte Scenario.two_suffixes 1
                       (Scenario.reader false false true 5) "M"
     = Some (Ok ({| LocalFile.path := "file:///mibs/M.txt"; LocalFile.file := "M.txt";
                    LocalFile.name := "M"; LocalFile.mtime := 7 |}, "ABCD"),
             Scenario.reader false false true 5).
Proof.
  split.
  - destruct (getData_size_cap
                Scenario.four_bytes string_of_list_byte Scenario.two_suffixes 1
                (Scenario.reader false false true 4) (Scenario.reader false false true 4)
                "M" ["/mibs"] [] [] "/mibs" (Scenario.two_suffixes "M") []
                [("M", "M.mib")] "M" "M.txt" 7%Z (list_byte_of_string "ABCD")
                eq_refl eq_refl eq_refl eq_refl (List.Forall_nil _) (List.Forall_nil _)
                eq_refl eq_refl eq_refl) as [Hcap _].
    exact (proj2 (Hcap eq_refl)).
  - destruct (getData_size_cap
                Scenario.four_bytes string_of_list_byte Scenario.two_suffixes 1
                (Scenario.reader false false true 5) (Scenario.reader false false true 5)
                "M" ["/mibs"] [] [] "/mibs" (Scenario.two_suffixes "M") []
                [("M", "M.mib")] "M" "M.txt" 7%Z (list_byte_of_string "ABCD")
                eq_refl eq_refl eq_refl eq_refl (List.Forall_nil _) (List.Forall_nil _)
                eq_refl eq_refl eq_refl) as [_ Hbelow].
    apply Hbelow. reflexivity.
Defined.

Lemma getMibVariants_indexed_witness :
  fst (LocalFile.getMibVariants Scenario.with_index Scenario.two_suffixes
                                (Scenario.reader true true true 1000) "FOO-MIB")
  = Ok [("FOO-MIB", "foo.mib")].
Proof.
  set (run := LocalFile.getMibVariants Scenario.with_index Scenario.two_suffixes
                                       (Scenario.reader true true true 1000) "FOO-MIB").
  assert (Hrun : exists vs, run = (Ok vs, snd run))
    by (eexists; vm_compute; reflexivity).
  destruct Hrun as [vs Hrun].
  destruct (getMibVariants_indexed Scenario.with_index Scenario.two_suffixes
                                   (Scenario.reader true true true 1000) (snd run)
                                   "FOO-MIB" vs eq_refl Hrun) as (_ & _ & Hin & _).
  rewrite Hrun. simpl. f_equal. apply (Hin "foo.mib"). vm_compute. reflexivity.
Defined.

(** ** Errors while reading a candidate *)

(** When errors are ignored and the first existing candidate cannot be
    read, the loop of [getData] leaves by the [raise] that follows the
    [try]: the remaining variants and directories are not tried. *)
Lemma getData_variants_error_ignored
      (fs : LocalFile.FileSystem) (decode : bytes -> string) (r : LocalFile.FileReader)
      (dir mibalias mibfile : string) (rest : list (string * string))
      (cause : LocalFile.io_error) :
  LocalFile.ignoreErrors r = true ->
  LocalFile.candidate fs (PosixPath.join dir mibfile) = true ->
  LocalFile.fetch_file fs (LocalFile.maxMibSize r) (PosixPath.join dir mibfile)
  = Raise (LocalFile.Caught cause) ->
  LocalFile.getData_variants fs decode r dir ((mibalias, mibfile) :: rest)
  = Some (Raise (LocalFile.PySmiReaderFileNotModifiedError (PosixPath.join dir mibfile))).
Proof.
  intros Hi Hc Hf. simpl. unfold LocalFile.candidate in Hc. rewrite Hc, Hf, Hi.
  reflexivity.
Qed.

(** C2. In [/mibs] the candidate [M.txt] exists but cannot be read, and the
    next candidate [M.mib] is a readable regular file.  With errors
    ignored, [getData] does not go on to [M.mib]: it raises
    [PySmiReaderFileNotModifiedError] for [M.txt]. *)
Theorem getData_read_error_ends_search :
  LocalFile.read_binary Scenario.unreadable_first "/mibs/M.txt" = None
  /\ LocalFile.candidate Scenario.unreadable_first "/mibs/M.mib" = true
  /\ LocalFile.fetch_file Scenario.unreadable_first 1000 "/mibs/M.mib"
     = Ok (20%Z, list_byte_of_string "M DEFINITIONS ::= BEGIN END")
  /\ LocalFile.getData Scenario.unreadable_first string_of_list_byte Scenario.two_suffixes 1
                       (Scenario.reader false false true 1000) "M"
     = Some (Raise (LocalFile.PySmiReaderFileNotModifiedError "/mibs/M.txt"),
             Scenario.reader false false true 1000).
Proof. repeat split; reflexivity. Qed.

(** ** The walk over the subdirectories *)

(** C8. [/mibs/a] is a directory whose listing fails.  Asked not to ignore
    errors, [getSubdirs] on [/mibs] still returns normally, with [/mibs/a]
    among the directories: the failure below the root is not raised.  The
    same failure on the root itself is raised. *)
Theorem getSubdirs_failure_below_root_not_raised :
  LocalFile.listdir Scenario.unlistable_subdir "/mibs/a" = None
  /\ LocalFile.getSubdirs Scenario.unlistable_subdir 2 "/mibs" true false
     = Some (Ok ["/mibs"; "/mibs/a"; "/mibs/b"])
  /\ LocalFile.getSubdirs Scenario.unlistable_subdir 2 "/mibs/a" true false
     = Some (Raise (LocalFile.PySmiError_directory "/mibs/a" LocalFile.OSError)).
Proof. repeat split; reflexivity. Qed.

Section SubdirsProperties.

Import LocalFile.

Variable fs : FileSystem.

(** Whenever [getSubdirs] returns, the directory it was called on comes
    first. *)
Lemma getSubdirs_root_first (fuel : nat) (path : string) (recursive ignore : bool)
      (dirs : list string) :
  getSubdirs fs fuel path recursive ignore = Some (Ok dirs) ->
  exists rest, dirs = path :: rest.
Proof.
  destruct fuel as [| fuel]; simpl; destruct recursive; simpl;
    try discriminate; try (intros [= <-]; eauto; fail).
  destruct (listdir fs path) as [subdirs |].
  - generalize (@nil string) as rest0.
    induction subdirs as [| d ds IH]; intros rest0 H.
    + injection H as <-. eauto.
    + destruct (isdir fs (PosixPath.join path d)); [| exact (IH _ H)].
      destruct (getSubdirs fs fuel (PosixPath.join path d) true true) as [[sub | e] |];
        try discriminate.
      exact (IH (rest0 ++ sub)%list H).
  - destruct ignore; [intros [= <-]; eauto | discriminate].
Qed.

(** With errors ignored, no listing failure makes [getSubdirs] raise. *)
Lemma getSubdirs_ignoring_never_raises (fuel : nat) :
  forall (path : string) (recursive : bool) (e : exn),
    getSubdirs fs fuel path recursive true <> Some (Raise e).
Proof.
  induction fuel as [| fuel IHf]; intros path recursive e; simpl;
    destruct recursive; simpl; try discriminate.
  destruct (listdir fs path) as [subdirs |]; [| discriminate].
  generalize [path] as acc.
  induction subdirs as [| d ds IH]; intros acc; [discriminate |].
  destruct (isdir fs (PosixPath.join path d)); [| apply IH].
  destruct (getSubdirs fs fuel (PosixPath.join path d) true true) as [[sub | e'] |] eqn:Hsub;
    [apply IH | | discriminate].
  exfalso. exact (IHf _ _ _ Hsub).
Qed.

(** A subdirectory that cannot be listed contributes itself and nothing
    below it. *)
Lemma getSubdirs_unlistable (fuel : nat) (path : string) :
  listdir fs path = None ->
  getSubdirs fs (S fuel) path true true = Some (Ok [path]).
Proof. intros H. simpl. rewrite H. reflexivity. Qed.

(** The walk ends when the directory structure is well founded: [rank]
    decreases from a directory to each subdirectory it lists. *)
Lemma getSubdirs_terminates (rank : string -> nat) :
  (forall p ds d, listdir fs p = Some ds -> In d ds ->
                  isdir fs (PosixPath.join p d) = true ->
                  rank (PosixPath.join p d) < rank p) ->
  forall (fuel : nat) (path : string) (recursive ignore : bool),
    rank path < fuel ->
    exists res, getSubdirs fs fuel path recursive ignore = Some res.
Proof.
  intros Hrank. induction fuel as [| fuel IHf]; intros path recursive ignore Hlt; [lia |].
  simpl. destruct recursive; simpl; [| eauto].
  destruct (listdir fs path) as [subdirs |] eqn:Hl; [| destruct ignore; eauto].
  match goal with
  | |- exists res, ?walk subdirs [path] = Some res =>
      assert (Hwalk : forall todo acc, incl todo subdirs ->
                                       exists res, walk todo acc = Some res)
  end.
  { induction todo as [| d ds IH]; intros acc Hsub; [eauto |].
    assert (Hds : incl ds subdirs) by (intros d' Hd'; apply Hsub; right; exact Hd').
    destruct (isdir fs (PosixPath.join path d)) eqn:Hd; [| apply IH, Hds].
    destruct (IHf (PosixPath.join path d) true true) as [res Hres].
    { pose proof (Hrank path subdirs d Hl (Hsub d (or_introl eq_refl)) Hd). lia. }
    rewrite Hres. destruct res as [sub | e]; [apply IH, Hds | eauto]. }
  apply Hwalk, incl_refl.
Qed.

End SubdirsProperties.

(** * The index file *)

Lemma partition_at_first (sep : ascii) (a b : string) :
  PyStr.contains sep a = false ->
  PyStr.partition sep (a +:+ String sep b) = (a, String sep "", b).
Proof.
  induction a as [| c a IH]; simpl; intros H.
  - rewrite Ascii.eqb_refl. reflexivity.
  - apply orb_false_iff in H as [Hc Ha]. rewrite Hc.
    change (String.append a (String sep b)) with (a +:+ String sep b).
    rewrite (IH Ha). reflexivity.
Qed.

Lemma partition_absent (sep : ascii) (s : string) :
  PyStr.contains sep s = false ->
  PyStr.partition sep s = (s, "", "").
Proof.
  induction s as [| c s IH]; simpl; intros H; [reflexivity |].
  apply orb_false_iff in H as [Hc Hs]. rewrite Hc, (IH Hs). reflexivity.
Qed.

(** The last line of the file decides the value of its key. *)
Lemma index_lines_app (lines1 lines2 : list string) (m : gmap string string) :
  LocalFile.index_lines (lines1 ++ lines2)%list m
  = LocalFile.index_lines lines2 (LocalFile.index_lines lines1 m).
Proof.
  revert m. induction lines1 as [| l ls IH]; intros m; simpl; [reflexivity |].
  destruct (LocalFile.index_entry l) as [k v]. apply IH.
Qed.

(** Lines with other keys leave the entry of a key as it is. *)
Lemma index_lines_other (lines : list string) (key : string) :
  Forall (fun line => fst (LocalFile.index_entry line) <> key) lines ->
  forall m : gmap string string,
    LocalFile.index_lines lines m !! key = m !! key.
Proof.
  induction 1 as [| line rest Hline _ IH]; intros m; simpl; [reflexivity |].
  destruct (LocalFile.index_entry line) as [k v]. simpl in Hline.
  rewrite IH. apply lookup_insert_ne. exact Hline.
Qed.

(** The map built from the lines is the one that lists the entries with
    the last line first, the first occurrence of a key deciding. *)
Lemma index_lines_list_to_map (lines : list string) :
  forall m : gmap string string,
    LocalFile.index_lines lines m
    = list_to_map (reverse (map LocalFile.index_entry lines)) ∪ m.
Proof.
  induction lines as [| line rest IH]; intros m; simpl.
  - rewrite (left_id_L ∅ (∪)). reflexivity.
  - destruct (LocalFile.index_entry line) as [k v] eqn:He.
    rewrite IH, reverse_cons, list_to_map_app. simpl.
    rewrite <- (assoc_L (∪)). f_equal.
    rewrite insert_empty. apply insert_union_singleton_l.
Qed.

(** C7, as amended.  A line of the index file is split at its first space
    character (U+0020): the text before it, trimmed, is the key and the
    text after it, trimmed, is the value; a line without a space is its own
    key, trimmed, with the empty value.  Every line of the file counts: the
    map holds, for each key, the value of the last line with that key, and
    no other key.  A missing index file, or one whose opening or reading
    fails with an [OSError], gives the empty map; an index file that is
    there and is not text raises [UnicodeDecodeError]. *)
Theorem loadIndex_first_space
        (fs : LocalFile.FileSystem) (indexFile a b : string) :
  PyStr.contains PyStr.SPACE a = false ->
  LocalFile.index_entry (a +:+ String PyStr.SPACE b) = (PyStr.strip a, PyStr.strip b)
  /\ LocalFile.index_entry a = (PyStr.strip a, "")
  /\ (forall lines,
         LocalFile.index_lines lines ∅
         = list_to_map (reverse (map LocalFile.index_entry lines)))
  /\ (forall before after,
         Forall (fun line => fst (LocalFile.index_entry line) <> PyStr.strip a) after ->
         LocalFile.index_lines (before ++ (a +:+ String PyStr.SPACE b) :: after)%list ∅
         !! PyStr.strip a = Some (PyStr.strip b))
  /\ (forall lines key,
         Forall (fun line => fst (LocalFile.index_entry line) <> key) lines ->
         LocalFile.index_lines lines ∅ !! key = None)
  /\ (LocalFile.path_exists fs indexFile = false -> LocalFile.loadIndex fs indexFile = Ok ∅)
  /\ (LocalFile.read_text fs indexFile = LocalFile.TextOSError ->
      LocalFile.loadIndex fs indexFile = Ok ∅)
  /\ (forall text, LocalFile.path_exists fs indexFile = true ->
                   LocalFile.read_text fs indexFile = LocalFile.Text text ->
                   LocalFile.loadIndex fs indexFile
                   = Ok (LocalFile.index_lines (PyStr.readlines text) ∅))
  /\ (LocalFile.path_exists fs indexFile = true ->
      LocalFile.read_text fs indexFile = LocalFile.TextUndecodable ->
      LocalFile.loadIndex fs indexFile = Raise (LocalFile.UnicodeDecodeError indexFile)).
Proof.
  intros Ha.
  assert (Hab : LocalFile.index_entry (a +:+ String PyStr.SPACE b)
                = (PyStr.strip a, PyStr.strip b)).
  { unfold LocalFile.index_entry. rewrite (partition_at_first _ _ _ Ha). reflexivity. }
  split; [exact Hab |].
  split; [| split; [| split; [| split; [| split; [| split; [| split]]]]]].
  - unfold LocalFile.index_entry. rewrite (partition_absent _ _ Ha). reflexivity.
  - intros lines. rewrite index_lines_list_to_map. apply (right_id_L ∅ (∪)).
  - intros before after Hafter. rewrite index_lines_app. simpl. rewrite Hab.
    rewrite (index_lines_other after _ Hafter). apply lookup_insert_eq.
  - intros lines key Hlines. rewrite (index_lines_other lines key Hlines).
    apply lookup_empty.
  - intros He. unfold LocalFile.loadIndex. rewrite He. reflexivity.
  - intros Hr. unfold LocalFile.loadIndex. rewrite Hr.
    destruct (LocalFile.path_exists fs indexFile); reflexivity.
  - intros text He Hr. unfold LocalFile.loadIndex. rewrite He, Hr. reflexivity.
  - intros He Hr. unfold LocalFile.loadIndex. rewrite He, Hr. reflexivity.
Qed.

Lemma loadIndex_first_space_witness :
  exists m,
    LocalFile.loadIndex Cases.three_lines "/mibs/.index" = Ok m
    /\ m !! "A-MIB" = Some "a2.mib"
    /\ m !! "B-MIB" = Some "b.mib"
    /\ m !! "C-MIB" = None
    /\ LocalFile.loadIndex Cases.three_lines "/mibs/absent" = Ok ∅.
Proof.
  destruct (loadIndex_first_space
              Cases.three_lines "/mibs/.index" "A-MIB" ("  a2.mib" +:+ String PyStr.LF "")
              eq_refl) as (_ & _ & _ & Hlast & Habsent & _ & _ & Hload & _).
  destruct (loadIndex_first_space
              Cases.three_lines "/mibs/absent" "B-MIB" ("b.mib" +:+ String PyStr.LF "")
              eq_refl) as (_ & _ & _ & Hmiddle & _ & Hmissing & _ & _ & _).
  eexists. split; [exact (Hload _ eq_refl eq_refl) |].
  split; [| split; [| split]].
  - apply (Hlast ["A-MIB a.mib" +:+ String PyStr.LF ""; "B-MIB b.mib" +:+ String PyStr.LF ""]
                 []).
    constructor.
  - apply (Hmiddle ["A-MIB a.mib" +:+ String PyStr.LF ""]
                   ["A-MIB   a2.mib" +:+ String PyStr.LF ""]).
    repeat constructor. discriminate.
  - apply Habsent. repeat constructor; discriminate.
  - apply Hmissing. reflexivity.
Defined.

(** A line whose key and value are separated by a tab: the first
    whitespace-delimited token is [FOO] and the rest is [foo.mib], but the
    index loaded from the file has no entry for [FOO]; the whole line is
    the key. *)
Lemma loadIndex_tab_separated :
  Claimed.index_entry Scenario.tab_line = ("FOO", "foo.mib")
  /\ (exists m, LocalFile.loadIndex Scenario.tab_index "/mibs/.index" = Ok m
                /\ m !! "FOO" = None)
  /\ LocalFile.index_entry Scenario.tab_line <> Claimed.index_entry Scenario.tab_line.
Proof.
  split; [reflexivity |]. split; [eexists; split; vm_compute; reflexivity |].
  vm_compute. discriminate.
Qed.

(** * Enumerating a directory tree *)

Section GeneratorProperties.

Import LocalFile.

Variable fs : FileSystem.
Variable decode : bytes -> string.
Variable r : FileReader.

(** A successful fetch returns the modification time and the whole file. *)
Lemma fetch_file_ok_inv (n : Z) (f : string) (mt : Z) (mibData : bytes) :
  fetch_file fs n f = Ok (mt, mibData) ->
  stat_mtime fs f = Some mt /\ read_binary fs f = Some mibData.
Proof.
  unfold fetch_file.
  destruct (stat_mtime fs f) as [mt0 |]; [| discriminate].
  destruct (read_binary fs f) as [content |]; [| discriminate].
  unfold read_upto.
  destruct (Z.ltb_spec n (-1)); [discriminate |].
  destruct (Z.ltb_spec n 0).
  - destruct (Z.eqb_spec (Z.of_nat (length content)) n); [discriminate |].
    intros [= <- <-]. auto.
  - destruct (Z.eqb_spec (Z.of_nat (length (firstn (Z.to_nat n) content))) n) as [He | He];
      [discriminate |].
    intros [= <- <-]. split; [reflexivity |]. f_equal.
    rewrite length_firstn in He. symmetry. apply firstn_all2. lia.
Qed.

(** The only exception of a fetch that the [except] clause does not catch
    is the [ValueError] of a read length below [-1]. *)
Lemma fetch_file_uncaught (n : Z) (f : string) (e : exn) :
  fetch_file fs n f = Raise (Uncaught e) -> (n < -1)%Z /\ e = ValueError n.
Proof.
  unfold fetch_file.
  destruct (stat_mtime fs f) as [mt0 |]; [| discriminate].
  destruct (read_binary fs f) as [content |]; [| discriminate].
  unfold read_upto.
  destruct (Z.ltb_spec n (-1)) as [Hn | Hn].
  - intros [= <-]. auto.
  - destruct (n <? 0)%Z; destruct (_ =? _)%Z; discriminate.
Qed.







End GeneratorProperties.



(** * Properties of the writer *)

Section WriterProperties.

Import PyFile.

Variable encode : string -> option bytes.

Lemma path_exists_false (st : Store) (p : string) :
  path_exists st p = false -> files st !! p = None /\ (p ∉ dirs st).
Proof.
  unfold path_exists. intros H. apply orb_false_iff in H as [Hf Hd].
  apply bool_decide_eq_false in Hf, Hd. split; [| exact Hd].
  destruct (files st !! p) eqn:E; [| reflexivity]. exfalso. apply Hf. eauto.
Qed.

Lemma path_exists_file (st : Store) (p : string) (x : bytes) :
  files st !! p = Some x -> path_exists st p = true.
Proof.
  intros H. unfold path_exists. apply orb_true_iff. left.
  apply bool_decide_eq_true. eauto.
Qed.

Lemma join_truthy (a b : string) :
  PyStr.truthy a = true -> PyStr.truthy (PosixPath.join a b) = true.
Proof.
  intros Ha. unfold PosixPath.join.
  destruct (PyStr.startswith PosixPath.sep b) eqn:Hb.
  - destruct b; [discriminate | reflexivity].
  - destruct a as [| c a]; [discriminate |].
    destruct (negb (PyStr.truthy (String c a)) || PyStr.endswith PosixPath.sep (String c a));
      reflexivity.
Qed.

Lemma pyfile_of_truthy (w : PyFileWriter) (mibname : string) :
  PyStr.truthy (pyfile_of w mibname) = true.
Proof.
  unfold pyfile_of. simpl.
  destruct (PosixPath.join (_path w) mibname); reflexivity.
Qed.

(** The temporary file is new, and lies in the directory asked for. *)
Lemma mkstemp_fresh (env : Env) (st st1 : Store) (d tfile : string) :
  mkstemp env st d = Some (tfile, st1) ->
  files st !! tfile = None /\ (tfile ∉ dirs st)
  /\ (exists n, tfile = PosixPath.join d n)
  /\ st1 = with_files st (<[tfile := []]> (files st)).
Proof.
  unfold mkstemp.
  destruct (mkstemp_fails env || negb (bool_decide (d ∈ dirs st))); [discriminate |].
  destruct (List.find _ _) as [t |] eqn:Hfind; [| discriminate].
  intros [= <- <-]. apply find_some in Hfind as [Hin Hnew].
  apply negb_true_iff, path_exists_false in Hnew as [Hf Hd].
  apply in_map_iff in Hin as (n & Hn & _).
  repeat split; eauto.
Qed.

(** ** Paths with a NUL character *)

Lemma contains_rev_app (c : ascii) (s acc : string) :
  PyStr.contains c (String.rev_app s acc) = PyStr.contains c s || PyStr.contains c acc.
Proof.
  revert acc. induction s as [| a s IH]; intros acc; simpl; [reflexivity |].
  rewrite IH. simpl.
  destruct (Ascii.eqb a c), (PyStr.contains c s), (PyStr.contains c acc); reflexivity.
Qed.

(** The directories leading to a path without NUL have none either. *)
Lemma parents_nul_free (p : string) :
  forall acc,
    PyStr.contains PyStr.NUL acc = false -> PyStr.contains PyStr.NUL p = false ->
    Forall (fun d => PyStr.contains PyStr.NUL d = false) (parents acc p).
Proof.
  induction p as [| c p IH]; intros acc Hacc Hp; simpl; [constructor |].
  simpl in Hp. apply orb_false_iff in Hp as [Hc Hp].
  assert (Hacc' : PyStr.contains PyStr.NUL (String c acc) = false)
    by (simpl; rewrite Hc, Hacc; reflexivity).
  destruct (Ascii.eqb c PosixPath.sep && PyStr.truthy acc).
  - constructor; [| exact (IH _ Hacc' Hp)].
    unfold String.rev. rewrite contains_rev_app, Hacc. reflexivity.
  - exact (IH _ Hacc' Hp).
Qed.


Lemma nul_free_prefix_all (ds : list string) :
  Forall (fun d => PyStr.contains PyStr.NUL d = false) ds ->
  nul_free_prefix ds = length ds.
Proof.
  induction 1 as [| d ds Hd _ IH]; simpl; [reflexivity |]. rewrite Hd, IH. reflexivity.
Qed.


Lemma chain_nul_free (p : string) :
  PyStr.contains PyStr.NUL p = false ->
  nul_free_prefix (makedirs_chain p) = length (makedirs_chain p).
Proof.
  intros Hp. apply nul_free_prefix_all. unfold makedirs_chain.
  apply Forall_app. split; [apply parents_nul_free; [reflexivity | exact Hp] |].
  constructor; [exact Hp | constructor].
Qed.


(** ** The root directory of the writer *)

(** Whatever [os.makedirs] does, it touches no file and removes no
    directory. *)
Lemma prepare_frame (w : PyFileWriter) (env : Env) (st st0 : Store) (r : option exn) :
  prepare w env st = (st0, r) -> files st0 = files st /\ dirs st ⊆ dirs st0.
Proof.
  unfold prepare.
  destruct (os_path_exists st (_path w));
    [intros [= <- _]; split; reflexivity |].
  destruct (makedirs_fails env && _);
    [intros [= <- _]; simpl; split; [reflexivity | apply union_subseteq_l] |].
  destruct (_ <? _)%nat; intros [= <- _]; simpl;
    (split; [reflexivity |]); [apply union_subseteq_l |].
  transitivity (dirs st ∪ list_to_set (parents EmptyString (_path w)));
    apply union_subseteq_l.
Qed.

(** A root without NUL that exists, or that [os.makedirs] can make. *)
Lemma prepare_ready (w : PyFileWriter) (env : Env) (st : Store) :
  PyStr.contains PyStr.NUL (_path w) = false ->
  path_exists st (_path w) = true \/ makedirs_fails env = false ->
  prepare w env st
  = (if path_exists st (_path w) then st else makedirs st (_path w), None).
Proof.
  intros Hn Hd. unfold prepare, os_path_exists. rewrite Hn. simpl.
  destruct (path_exists st (_path w)); [reflexivity |].
  destruct Hd as [Hd | Hd]; [discriminate |]. rewrite Hd. simpl.
  rewrite (chain_nul_free _ Hn), Nat.ltb_irrefl. reflexivity.
Qed.


(** The two ways in which the root cannot be had. *)
Lemma prepare_error (w : PyFileWriter) (env : Env) (st st0 : Store) (e : exn) :
  prepare w env st = (st0, Some e) ->
  os_path_exists st (_path w) = false
  /\ ((e = PySmiWriterError_directory (_path w) /\ makedirs_fails env = true)
      \/ (e = ValueError /\ PyStr.contains PyStr.NUL (_path w) = true)).
Proof.
  unfold prepare. destruct (os_path_exists st (_path w)); [discriminate |].
  split; [reflexivity |].
  destruct (makedirs_fails env && _) eqn:Hm.
  - injection H as _ <-. apply andb_true_iff in Hm as [Hm _]. auto.
  - destruct (Nat.ltb_spec (nul_free_prefix (makedirs_chain (_path w)))
                           (length (makedirs_chain (_path w)))) as [Hlt | Hge];
      [| discriminate].
    injection H as _ <-. right. split; [reflexivity |].
    destruct (PyStr.contains PyStr.NUL (_path w)) eqn:Hn; [reflexivity |].
    rewrite (chain_nul_free _ Hn) in Hlt. lia.
Qed.

(** ** The [try] around the write *)

Lemma write_file_nul_dir (env : Env) (st : Store) (d pyfile data : string) :
  PyStr.contains PyStr.NUL d = true ->
  write_file encode env st d pyfile data = (st, None, Some (Uncaught ValueError)).
Proof. intros Hd. unfold write_file. rewrite Hd. reflexivity. Qed.

(** When the [try] fails with an exception that is caught, the store
    differs from the one before at most by the temporary file, which is
    then still there. *)
Lemma write_file_failure (env : Env) (st st1 : Store) (d pyfile data : string)
      (tfile : option string) (cause : write_error) :
  write_file encode env st d pyfile data = (st1, tfile, Some (Caught cause)) ->
  match tfile with
  | None => st1 = st
  | Some t =>
      files st !! t = None
      /\ (exists n, t = PosixPath.join d n)
      /\ (exists x, files st1 !! t = Some x)
      /\ delete t (files st1) = files st
  end.
Proof.
  unfold write_file.
  destruct (PyStr.contains PyStr.NUL d); [discriminate |].
  destruct (mkstemp env st d) as [[t st0] |] eqn:Hmk; [| intros [= <- <-]; reflexivity].
  apply mkstemp_fresh in Hmk as (Hnew & _ & Hn & ->).
  destruct (encode data) as [raw |].
  - destruct (write_fails env).
    + intros [= <- <- _]. simpl. repeat split; auto.
      * eexists. apply lookup_insert_eq.
      * rewrite delete_insert_eq. apply delete_id. exact Hnew.
    + destruct (close_fails env);
        [| destruct (PyStr.contains PyStr.NUL pyfile);
           [discriminate | destruct (rename_fails env || _); [| discriminate]]];
        intros [= <- <- ?]; simpl; repeat split; auto;
        try (eexists; apply lookup_insert_eq);
        rewrite insert_insert_eq, delete_insert_eq; apply delete_id; exact Hnew.
  - intros [= <- <- _]. simpl. repeat split; auto.
    + eexists. apply lookup_insert_eq.
    + rewrite delete_insert_eq. apply delete_id. exact Hnew.
Qed.

(** The one exception that leaves the [try] uncaught is the [ValueError]
    of a NUL character: in the directory, and then nothing has happened,
    or in the destination, and then the temporary file has been written
    and closed, and stays. *)
Lemma write_file_uncaught (env : Env) (st st1 : Store) (d pyfile data : string)
      (tfile : option string) (e : exn) :
  write_file encode env st d pyfile data = (st1, tfile, Some (Uncaught e)) ->
  e = ValueError
  /\ ((PyStr.contains PyStr.NUL d = true /\ st1 = st /\ tfile = None)
      \/ (PyStr.contains PyStr.NUL d = false
          /\ PyStr.contains PyStr.NUL pyfile = true
          /\ exists t raw,
               tfile = Some t /\ encode data = Some raw
               /\ In t (map (PosixPath.join d) (tmp_names env))
               /\ files st !! t = None
               /\ st1 = with_files st (<[t := raw]> (files st)))).
Proof.
  unfold write_file.
  destruct (PyStr.contains PyStr.NUL d); [intros [= <- <- <-]; auto |].
  destruct (mkstemp env st d) as [[t st0] |] eqn:Hmk; [| discriminate].
  pose proof Hmk as Hin. unfold mkstemp in Hin.
  destruct (mkstemp_fails env || _); [discriminate |].
  destruct (List.find _ _) as [t0 |] eqn:Hfind; [| discriminate].
  injection Hin as -> _. apply find_some in Hfind as [Hin _].
  apply mkstemp_fresh in Hmk as (Hnew & _ & _ & ->).
  destruct (encode data) as [raw |]; [| discriminate].
  destruct (write_fails env); [discriminate |].
  destruct (close_fails env); [discriminate |].
  destruct (PyStr.contains PyStr.NUL pyfile);
    [| destruct (rename_fails env || _); discriminate].
  intros [= <- <- <-]. split; [reflexivity |]. right.
  split; [reflexivity |]. split; [reflexivity |].
  exists t, raw. repeat split; auto.
  unfold with_files. simpl. rewrite insert_insert_eq. reflexivity.
Qed.

(** When the [try] succeeds, the destination holds the encoded data and
    every other file is as before; the temporary file is gone. *)
Lemma write_file_success (env : Env) (st st1 : Store) (d pyfile data : string)
      (tfile : option string) :
  write_file encode env st d pyfile data = (st1, tfile, None) ->
  exists raw,
    encode data = Some raw
    /\ files st1 !! pyfile = Some raw
    /\ (forall p, p <> pyfile -> files st1 !! p = files st !! p)
    /\ dirs st1 = dirs st.
Proof.
  unfold write_file.
  destruct (PyStr.contains PyStr.NUL d); [discriminate |].
  destruct (mkstemp env st d) as [[t st0] |] eqn:Hmk; [| discriminate].
  apply mkstemp_fresh in Hmk as (Hnew & _ & _ & ->).
  destruct (encode data) as [raw |]; [| discriminate].
  destruct (write_fails env); [discriminate |].
  destruct (close_fails env); [discriminate |].
  destruct (PyStr.contains PyStr.NUL pyfile); [discriminate |].
  destruct (rename_fails env || _); [discriminate |].
  intros [= <- _]. simpl. exists raw. repeat split.
  - apply lookup_insert_eq.
  - intros p Hp. rewrite lookup_insert_ne by congruence.
    rewrite insert_insert_eq, delete_insert_eq, delete_id by exact Hnew. reflexivity.
Qed.

(** The store on which the [try] of [putData] starts. *)
Lemma putData_unfold (w : PyFileWriter) (env : Env) (st : Store)
      (mibname data : string) (comments : list string) :
  PyStr.contains PyStr.NUL (_path w) = false ->
  path_exists st (_path w) = true \/ makedirs_fails env = false ->
  putData encode w env st mibname data comments false
  = match write_file encode env
                     (if path_exists st (_path w) then st else makedirs st (_path w))
                     (_path w) (pyfile_of w mibname) (with_comments comments data) with
    | (st1, tfile, Some (Caught cause)) =>
        unlink_and_raise env st1 tfile
                         (PySmiWriterError_writing (pyfile_of w mibname) cause)
    | (st1, _, Some (Uncaught e)) => (st1, Raise e)
    | (st1, _, None) => compile_step w env st1 (pyfile_of w mibname) mibname
    end.
Proof.
  intros Hn Hd. unfold putData. rewrite (prepare_ready w env st Hn Hd). reflexivity.
Qed.


Lemma files_prepared (st : Store) (p : string) :
  files (if path_exists st p then st else makedirs st p) = files st.
Proof. destruct (path_exists st p); reflexivity. Qed.

(** C4, as amended.  When the [try] of a store fails with an [OSError]
    or a [UnicodeEncodeError] (in creating the temporary file, encoding
    or writing the data, closing, or renaming), whatever was at the
    destination before is still there afterwards.  If no temporary file
    was created, or removing it succeeds, [putData] raises the writer
    error for the destination and the files are exactly those from before
    the call: the temporary file is gone.  If removing the temporary file
    fails, the [OSError] of [os.unlink] is raised in place of the writer
    error and the temporary file stays behind.  [_path] is a normalised
    path and so not empty. *)
Theorem putData_write_failure_cleans_up
        (w : PyFileWriter) (env : Env) (st st1 : Store)
        (mibname data : string) (comments : list string)
        (tfile : option string) (cause : write_error) :
  PyStr.truthy (_path w) = true ->
  path_exists st (_path w) = true \/ makedirs_fails env = false ->
  write_file encode env
             (if path_exists st (_path w) then st else makedirs st (_path w))
             (_path w) (pyfile_of w mibname) (with_comments comments data)
  = (st1, tfile, Some (Caught cause)) ->
  exists st' res,
    putData encode w env st mibname data comments false = (st', res)
    /\ (forall x, files st !! pyfile_of w mibname = Some x ->
                  files st' !! pyfile_of w mibname = Some x)
    /\ (tfile = None \/ unlink_fails env = false ->
        res = Raise (PySmiWriterError_writing (pyfile_of w mibname) cause)
        /\ files st' = files st
        /\ (forall t, tfile = Some t -> files st1 !! t <> None /\ files st' !! t = None))
    /\ (forall t, tfile = Some t -> unlink_fails env = true ->
                  res = Raise (OSError_unlink t) /\ st' = st1
                  /\ files st !! t = None /\ is_Some (files st' !! t)).
Proof.
  intros Hpath Hdir Hw.
  assert (Hn : PyStr.contains PyStr.NUL (_path w) = false).
  { destruct (PyStr.contains PyStr.NUL (_path w)) eqn:Hn; [| reflexivity].
    rewrite (write_file_nul_dir _ _ _ _ _ Hn) in Hw. discriminate. }
  rewrite (putData_unfold w env st mibname data comments Hn Hdir), Hw.
  apply write_file_failure in Hw. rewrite files_prepared in Hw.
  destruct tfile as [t |]; simpl.
  - destruct Hw as (Hnew & (n & ->) & (x & Hx) & Hdel).
    rewrite (join_truthy _ n Hpath), (path_exists_file _ _ _ Hx). simpl.
    destruct (unlink_fails env).
    + eexists _, _. split; [reflexivity |]. split; [| split].
      * intros y Hy. rewrite <- Hdel in Hy.
        destruct (decide (PosixPath.join (_path w) n = pyfile_of w mibname)) as [He | Hne].
        -- rewrite <- He, lookup_delete_eq in Hy. discriminate.
        -- rewrite lookup_delete_ne in Hy by exact Hne. exact Hy.
      * intros [H | H]; discriminate.
      * intros t [= <-] _. repeat split; eauto.
    + eexists _, _. split; [reflexivity |]. simpl. rewrite Hdel.
      split; [auto |]. split.
      * intros _. split; [reflexivity |]. split; [reflexivity |].
        intros t [= <-]. split; [congruence | exact Hnew].
      * intros t _ H. discriminate.
  - subst st1. eexists _, _. split; [reflexivity |]. rewrite files_prepared.
    split; [auto |]. split.
    + intros _. repeat split; discriminate.
    + intros t H. discriminate.
Qed.

(** C6, as amended.  With validation on and the file written: when the
    compilation ends in the expected class of failure ([SyntaxError],
    [PyCompileError]), the store succeeds and the file stays.  When it
    ends in any other exception and the removal of the file just moved
    into place succeeds, the file is removed and the writer error is
    raised, so that nothing is left under the final name.  When that
    removal fails, the [OSError] of [os.unlink] is raised in place of the
    writer error and the file stays under the final name. *)
Theorem putData_validation
        (w : PyFileWriter) (env : Env) (st st1 : Store)
        (mibname data : string) (comments : list string) (tfile : option string) :
  pyCompile w = true ->
  path_exists st (_path w) = true \/ makedirs_fails env = false ->
  write_file encode env
             (if path_exists st (_path w) then st else makedirs st (_path w))
             (_path w) (pyfile_of w mibname) (with_comments comments data)
  = (st1, tfile, None) ->
  (compile_result env = CompileRejected ->
   putData encode w env st mibname data comments false = (st1, Ok tt)
   /\ exists raw, encode (with_comments comments data) = Some raw
                  /\ files st1 !! pyfile_of w mibname = Some raw)
  /\ (compile_result env = CompileCrashed -> unlink_fails env = false ->
      exists st',
        putData encode w env st mibname data comments false
        = (st', Raise (PySmiWriterError_compiling (pyfile_of w mibname) mibname))
        /\ files st' !! pyfile_of w mibname = None
        /\ forall p, p <> pyfile_of w mibname -> files st' !! p = files st !! p)
  /\ (compile_result env = CompileCrashed -> unlink_fails env = true ->
      putData encode w env st mibname data comments false
      = (st1, Raise (OSError_unlink (pyfile_of w mibname)))
      /\ exists raw, encode (with_comments comments data) = Some raw
                     /\ files st1 !! pyfile_of w mibname = Some raw).
Proof.
  intros Hc Hdir Hw.
  assert (Hn : PyStr.contains PyStr.NUL (_path w) = false).
  { destruct (PyStr.contains PyStr.NUL (_path w)) eqn:Hn; [| reflexivity].
    rewrite (write_file_nul_dir _ _ _ _ _ Hn) in Hw. discriminate. }
  pose proof (putData_unfold w env st mibname data comments Hn Hdir) as Hput.
  rewrite Hw in Hput.
  apply write_file_success in Hw as (raw & Henc & Hpy & Hother & _).
  rewrite files_prepared in Hother.
  unfold compile_step in Hput. rewrite Hc in Hput. split; [| split].
  - intros Hr. rewrite Hr in Hput. split; [exact Hput | eauto].
  - intros Hr Hunlink. rewrite Hr in Hput. unfold unlink_and_raise in Hput.
    rewrite pyfile_of_truthy, (path_exists_file _ _ _ Hpy), Hunlink in Hput.
    simpl in Hput. eexists. split; [exact Hput |]. simpl. split.
    + apply lookup_delete_eq.
    + intros p Hp. rewrite lookup_delete_ne by congruence. apply Hother, Hp.
  - intros Hr Hunlink. rewrite Hr in Hput. unfold unlink_and_raise in Hput.
    rewrite pyfile_of_truthy, (path_exists_file _ _ _ Hpy), Hunlink in Hput.
    simpl in Hput. split; [exact Hput | eauto].
Qed.




End WriterProperties.

(** ** Stores on a concrete directory *)

Lemma putData_write_failure_cleans_up_witness :
  (exists st',
      PyFile.putData Scenario.to_bytes Scenario.writer Scenario.rename_failing
                     Scenario.earlier_store "mod" "x = 1" [] false
      = (st', Raise (PyFile.PySmiWriterError_writing "/out/mod.py" PyFile.OSError))
      /\ PyFile.files st' = PyFile.files Scenario.earlier_store
      /\ PyFile.files st' !! "/out/mod.py" = Some (list_byte_of_string "old")
      /\ PyFile.files st' !! "/out/tmpk3v9_x1a" = None)
  /\ (exists st',
         PyFile.putData Scenario.to_bytes Scenario.writer Cases.unlink_failing
                        Scenario.earlier_store "mod" "x = 1" [] false
         = (st', Raise (PyFile.OSError_unlink "/out/tmpk3v9_x1a"))
         /\ PyFile.files st' !! "/out/mod.py" = Some (list_byte_of_string "old")
         /\ is_Some (PyFile.files st' !! "/out/tmpk3v9_x1a")).
Proof.
  split.
  - set (run := PyFile.write_file
                  Scenario.to_bytes Scenario.rename_failing
                  (if PyFile.path_exists Scenario.earlier_store (PyFile._path Scenario.writer)
                   then Scenario.earlier_store
                   else PyFile.makedirs Scenario.earlier_store (PyFile._path Scenario.writer))
                  (PyFile._path Scenario.writer) (PyFile.pyfile_of Scenario.writer "mod")
                  (PyFile.with_comments [] "x = 1")).
    assert (Hw : run = (fst (fst run), Some "/out/tmpk3v9_x1a",
                        Some (PyFile.Caught PyFile.OSError)))
      by (vm_compute; reflexivity).
    destruct (putData_write_failure_cleans_up
                Scenario.to_bytes Scenario.writer Scenario.rename_failing
                Scenario.earlier_store (fst (fst run)) "mod" "x = 1" []
                (Some "/out/tmpk3v9_x1a") PyFile.OSError
                eq_refl (or_introl eq_refl) Hw)
      as (st' & res & Hput & Hkept & Hclean & _).
    destruct (Hclean (or_intror eq_refl)) as (-> & Hfiles & Htmp).
    exists st'. split; [exact Hput |]. split; [exact Hfiles |]. split.
    + apply Hkept. vm_compute. reflexivity.
    + exact (proj2 (Htmp _ eq_refl)).
  - set (run := PyFile.write_file
                  Scenario.to_bytes Cases.unlink_failing
                  (if PyFile.path_exists Scenario.earlier_store (PyFile._path Scenario.writer)
                   then Scenario.earlier_store
                   else PyFile.makedirs Scenario.earlier_store (PyFile._path Scenario.writer))
                  (PyFile._path Scenario.writer) (PyFile.pyfile_of Scenario.writer "mod")
                  (PyFile.with_comments [] "x = 1")).
    assert (Hw : run = (fst (fst run), Some "/out/tmpk3v9_x1a",
                        Some (PyFile.Caught PyFile.OSError)))
      by (vm_compute; reflexivity).
    destruct (putData_write_failure_cleans_up
                Scenario.to_bytes Scenario.writer Cases.unlink_failing
                Scenario.earlier_store (fst (fst run)) "mod" "x = 1" []
                (Some "/out/tmpk3v9_x1a") PyFile.OSError
                eq_refl (or_introl eq_refl) Hw)
      as (st' & res & Hput & Hkept & _ & Hstuck).
    destruct (Hstuck _ eq_refl eq_refl) as (-> & _ & _ & Hthere).
    exists st'. split; [exact Hput |]. split; [| exact Hthere].
    apply Hkept. vm_compute. reflexivity.
Defined.

(** The rename fails and then the removal of the temporary file fails
    too.  What [putData] raises is the [OSError] of [os.unlink], which is
    no writer error, and the temporary file, which was not there before
    the call, is left behind with the data in it. *)
Lemma putData_orphan_temp_file :
  exists st',
    PyFile.putData Scenario.to_bytes Scenario.writer Cases.unlink_failing
                   Scenario.earlier_store "mod" "x = 1" [] false
    = (st', Raise (PyFile.OSError_unlink "/out/tmpk3v9_x1a"))
    /\ PyFile.files Scenario.earlier_store !! "/out/tmpk3v9_x1a" = None
    /\ PyFile.files st' !! "/out/tmpk3v9_x1a" = Some (list_byte_of_string "x = 1")
    /\ forall pyfile cause,
         PyFile.OSError_unlink "/out/tmpk3v9_x1a"
         <> PyFile.PySmiWriterError_writing pyfile cause.
Proof.
  eexists. split; [vm_compute; reflexivity |].
  split; [vm_compute; reflexivity |]. split; [vm_compute; reflexivity |].
  intros pyfile cause. discriminate.
Qed.

Lemma putData_validation_witness :
  (exists st1,
      PyFile.putData Scenario.to_bytes Scenario.writer
                     (Scenario.calm PyFile.CompileRejected)
                     Scenario.earlier_store "mod" "x = 1" [] false
      = (st1, Ok tt)
      /\ PyFile.files st1 !! "/out/mod.py" = Some (list_byte_of_string "x = 1"))
  /\ (exists st',
         PyFile.putData Scenario.to_bytes Scenario.writer
                        (Scenario.calm PyFile.CompileCrashed)
                        Scenario.earlier_store "mod" "x = 1" [] false
         = (st', Raise (PyFile.PySmiWriterError_compiling "/out/mod.py" "mod"))
         /\ PyFile.files st' !! "/out/mod.py" = None)
  /\ (exists st',
         PyFile.putData Scenario.to_bytes Scenario.writer Cases.crash_unlink_failing
                        Scenario.earlier_store "mod" "x = 1" [] false
         = (st', Raise (PyFile.OSError_unlink "/out/mod.py"))
         /\ PyFile.files st' !! "/out/mod.py" = Some (list_byte_of_string "x = 1")).
Proof.
  split; [| split].
  - set (run := PyFile.write_file
                  Scenario.to_bytes (Scenario.calm PyFile.CompileRejected)
                  (if PyFile.path_exists Scenario.earlier_store (PyFile._path Scenario.writer)
                   then Scenario.earlier_store
                   else PyFile.makedirs Scenario.earlier_store (PyFile._path Scenario.writer))
                  (PyFile._path Scenario.writer) (PyFile.pyfile_of Scenario.writer "mod")
                  (PyFile.with_comments [] "x = 1")).
    assert (Hw : run = (fst (fst run), snd (fst run), None)) by (vm_compute; reflexivity).
    destruct (putData_validation
                Scenario.to_bytes Scenario.writer (Scenario.calm PyFile.CompileRejected)
                Scenario.earlier_store (fst (fst run)) "mod" "x = 1" [] (snd (fst run))
                eq_refl (or_introl eq_refl) Hw) as (Hrejected & _ & _).
    destruct (Hrejected eq_refl) as (Hput & raw & Henc & Hpy).
    exists (fst (fst run)). split; [exact Hput |].
    unfold Scenario.to_bytes in Henc. injection Henc as <-. exact Hpy.
  - set (run := PyFile.write_file
                  Scenario.to_bytes (Scenario.calm PyFile.CompileCrashed)
                  (if PyFile.path_exists Scenario.earlier_store (PyFile._path Scenario.writer)
                   then Scenario.earlier_store
                   else PyFile.makedirs Scenario.earlier_store (PyFile._path Scenario.writer))
                  (PyFile._path Scenario.writer) (PyFile.pyfile_of Scenario.writer "mod")
                  (PyFile.with_comments [] "x = 1")).
    assert (Hw : run = (fst (fst run), snd (fst run), None)) by (vm_compute; reflexivity).
    destruct (putData_validation
                Scenario.to_bytes Scenario.writer (Scenario.calm PyFile.CompileCrashed)
                Scenario.earlier_store (fst (fst run)) "mod" "x = 1" [] (snd (fst run))
                eq_refl (or_introl eq_refl) Hw) as (_ & Hcrashed & _).
    destruct (Hcrashed eq_refl eq_refl) as (st' & Hput & Hgone & _).
    exists st'. split; [exact Hput | exact Hgone].
  - set (run := PyFile.write_file
                  Scenario.to_bytes Cases.crash_unlink_failing
                  (if PyFile.path_exists Scenario.earlier_store (PyFile._path Scenario.writer)
                   then Scenario.earlier_store
                   else PyFile.makedirs Scenario.earlier_store (PyFile._path Scenario.writer))
                  (PyFile._path Scenario.writer) (PyFile.pyfile_of Scenario.writer "mod")
                  (PyFile.with_comments [] "x = 1")).
    assert (Hw : run = (fst (fst run), snd (fst run), None)) by (vm_compute; reflexivity).
    destruct (putData_validation
                Scenario.to_bytes Scenario.writer Cases.crash_unlink_failing
                Scenario.earlier_store (fst (fst run)) "mod" "x = 1" [] (snd (fst run))
                eq_refl (or_introl eq_refl) Hw) as (_ & _ & Hstuck).
    destruct (Hstuck eq_refl eq_refl) as (Hput & raw & Henc & Hpy).
    exists (fst (fst run)). split; [exact Hput |].
    unfold Scenario.to_bytes in Henc. injection Henc as <-. exact Hpy.
Defined.

(** The compilation of the file just stored crashes, and the removal of
    the file fails.  What [putData] raises is the [OSError] of
    [os.unlink], which is no writer error, and the file that was not
    validated stays under the final name, in place of the earlier one. *)
Lemma putData_crash_keeps_artifact :
  exists st',
    PyFile.putData Scenario.to_bytes Scenario.writer Cases.crash_unlink_failing
                   Scenario.earlier_store "mod" "x = 1" [] false
    = (st', Raise (PyFile.OSError_unlink "/out/mod.py"))
    /\ PyFile.files Scenario.earlier_store !! "/out/mod.py"
       = Some (list_byte_of_string "old")
    /\ PyFile.files st' !! "/out/mod.py" = Some (list_byte_of_string "x = 1")
    /\ forall pyfile mibname,
         PyFile.OSError_unlink "/out/mod.py"
         <> PyFile.PySmiWriterError_compiling pyfile mibname.
Proof.
  eexists. split; [vm_compute; reflexivity |].
  split; [vm_compute; reflexivity |]. split; [vm_compute; reflexivity |].
  intros pyfile mibname. discriminate.
Qed.




(** In [/mibs] the first listed file cannot be read.  With errors ignored
    the generator leaves the listing loop of that directory: the readable
    file listed after it is not yielded either. *)
Lemma dataGenerator_read_error_ends_directory :
  LocalFile.listdir Scenario.unreadable_first "/mibs" = Some ["M.txt"; "M.mib"]
  /\ LocalFile.dataGenerator Scenario.unreadable_first string_of_list_byte 1
                             (Scenario.reader false false true 1000)
     = Some ([], None).
Proof. split; reflexivity. Qed.

(** * The string and path functions on small inputs *)

Example splitext_plain : PosixPath.splitext "x.txt" = ("x", ".txt").
Proof. reflexivity. Qed.

Example splitext_hidden : PosixPath.splitext ".index" = (".index", "").
Proof. reflexivity. Qed.

Example splitext_two_dots : PosixPath.splitext "a/b.c/x.tar.gz" = ("a/b.c/x.tar", ".gz").
Proof. reflexivity. Qed.

Example join_plain : PosixPath.join "/mibs" "foo.mib" = "/mibs/foo.mib".
Proof. reflexivity. Qed.

Example join_absolute : PosixPath.join "/mibs" "/etc/x" = "/etc/x".
Proof. reflexivity. Qed.

Example strip_both : PyStr.strip "  a b  " = "a b".
Proof. reflexivity. Qed.

Example index_entry_leading_space :
  LocalFile.index_entry " FOO-MIB foo.mib" = ("", "FOO-MIB foo.mib").
Proof. reflexivity. Qed.

(** * Further properties of the reader *)

Section SubdirsShape.

Import LocalFile.

Variable fs : FileSystem.

(** X1.  Whenever [getSubdirs] returns, the directory it was called on
    comes first and is the only one when the walk is not recursive;
    every path after it satisfies [os.path.isdir]. *)
Theorem getSubdirs_shape (fuel : nat) :
  forall (path : string) (recursive ignore : bool) (dirs : list string),
    getSubdirs fs fuel path recursive ignore = Some (Ok dirs) ->
    exists rest,
      dirs = path :: rest
      /\ (recursive = false -> rest = [])
      /\ Forall (fun d => isdir fs d = true) rest.
Proof.
  induction fuel as [| fuel IHf]; intros path recursive ignore dirs; simpl;
    destruct recursive; simpl; try discriminate;
    try (intros [= <-]; exists []; repeat split; auto; fail).
  destruct (listdir fs path) as [subdirs |].
  - intros H.
    enough (exists rest, dirs = path :: rest /\ Forall (fun d => isdir fs d = true) rest)
      as (rest & Hdirs & Hrest)
        by (exists rest; split; [exact Hdirs |]; split; [discriminate | exact Hrest]).
    revert H.
    assert (Hacc : Forall (fun d => isdir fs d = true) (@nil string)) by constructor.
    revert Hacc. generalize (@nil string) as rest0.
    induction subdirs as [| d ds IH]; intros rest0 Hacc H.
    + injection H as <-. exists rest0. split; [reflexivity | exact Hacc].
    + destruct (isdir fs (PosixPath.join path d)) eqn:Hd; [| exact (IH _ Hacc H)].
      destruct (getSubdirs fs fuel (PosixPath.join path d) true true) as [[sub | e] |] eqn:Hsub;
        try discriminate.
      destruct (IHf _ _ _ _ Hsub) as (rest' & -> & _ & Hrest').
      apply (IH (rest0 ++ PosixPath.join path d :: rest')%list); [| exact H].
      apply Forall_app. split; [exact Hacc |]. constructor; assumption.
  - destruct ignore; [| discriminate].
    intros [= <-]. exists []. repeat split; auto.
Qed.

(** An exception of [getSubdirs] comes from the listing of the directory
    it was called on. *)
Lemma getSubdirs_raise_inv (fuel : nat) (path : string)
      (recursive ignore : bool) (e : exn) :
  getSubdirs fs fuel path recursive ignore = Some (Raise e) ->
  recursive = true /\ ignore = false /\ listdir fs path = None
  /\ e = PySmiError_directory path OSError.
Proof.
  destruct fuel as [| fuel]; simpl; destruct recursive; simpl; try discriminate.
  destruct (listdir fs path) as [subdirs |].
  - intros H. exfalso. revert H. generalize [path] as acc.
    induction subdirs as [| d ds IH]; intros acc; [discriminate |].
    destruct (isdir fs (PosixPath.join path d)); [| apply IH].
    destruct (getSubdirs fs fuel (PosixPath.join path d) true true) as [[sub | e'] |] eqn:Hsub;
      [apply IH | | discriminate].
    intros _. exact (getSubdirs_ignoring_never_raises fs fuel _ _ _ Hsub).
  - destruct ignore; [discriminate |]. intros [= <-]. auto.
Qed.

(** X2.  The only exception [getSubdirs] raises is the access error for
    the directory it was called on, when the walk is recursive, errors
    are not ignored and the listing of that very directory fails: with
    errors ignored it raises nothing, and a failure further down is never
    raised. *)
Theorem getSubdirs_raises_for_root_only (fuel : nat) (path : string)
        (recursive ignore : bool) (e : exn) :
  getSubdirs fs fuel path recursive ignore = Some (Raise e) ->
  recursive = true /\ ignore = false /\ listdir fs path = None
  /\ e = PySmiError_directory path OSError
  /\ forall fuel' sub, getSubdirs fs fuel' sub recursive true <> Some (Raise e).
Proof.
  intros H. destruct (getSubdirs_raise_inv fuel path recursive ignore e H)
    as (Hr & Hi & Hl & He).
  repeat split; try assumption.
  intros fuel' sub. apply getSubdirs_ignoring_never_raises.
Qed.

(** More fuel does not change what [getSubdirs] returns. *)
Lemma getSubdirs_more_fuel (fuel : nat) :
  forall (path : string) (recursive ignore : bool) res,
    getSubdirs fs fuel path recursive ignore = Some res ->
    getSubdirs fs (S fuel) path recursive ignore = Some res.
Proof.
  induction fuel as [| fuel IHf]; intros path recursive ignore res.
  - simpl. destruct recursive; simpl; [discriminate | auto].
  - intros H. destruct recursive; [| exact H].
    change (getSubdirs fs (S fuel) path true ignore)
      with (match listdir fs path with
            | None => if ignore then Some (Ok [path])
                      else Some (Raise (PySmiError_directory path OSError))
            | Some subdirs =>
                (fix walk (ds dirs : list string) : option (result exn (list string)) :=
                   match ds with
                   | [] => Some (Ok dirs)
                   | d :: ds' =>
                       if isdir fs (PosixPath.join path d) then
                         match getSubdirs fs fuel (PosixPath.join path d) true true with
                         | None => None
                         | Some (Raise e) => Some (Raise e)
                         | Some (Ok sub) => walk ds' (dirs ++ sub)%list
                         end
                       else walk ds' dirs
                   end) subdirs [path]
            end) in H.
    change (getSubdirs fs (S (S fuel)) path true ignore)
      with (match listdir fs path with
            | None => if ignore then Some (Ok [path])
                      else Some (Raise (PySmiError_directory path OSError))
            | Some subdirs =>
                (fix walk (ds dirs : list string) : option (result exn (list string)) :=
                   match ds with
                   | [] => Some (Ok dirs)
                   | d :: ds' =>
                       if isdir fs (PosixPath.join path d) then
                         match getSubdirs fs (S fuel) (PosixPath.join path d) true true with
                         | None => None
                         | Some (Raise e) => Some (Raise e)
                         | Some (Ok sub) => walk ds' (dirs ++ sub)%list
                         end
                       else walk ds' dirs
                   end) subdirs [path]
            end).
    destruct (listdir fs path) as [subdirs |]; [| exact H].
    revert H. generalize [path] as acc.
    induction subdirs as [| d ds IH]; intros acc H; [exact H |].
    destruct (isdir fs (PosixPath.join path d)); [| exact (IH _ H)].
    destruct (getSubdirs fs fuel (PosixPath.join path d) true true) as [sub |] eqn:Hsub;
      [| discriminate].
    rewrite (IHf _ _ _ _ Hsub). destruct sub as [sub | e]; [exact (IH _ H) | exact H].
Qed.

Lemma getSubdirs_fuel_le (fuel fuel' : nat) (path : string) (recursive ignore : bool) res :
  fuel <= fuel' ->
  getSubdirs fs fuel path recursive ignore = Some res ->
  getSubdirs fs fuel' path recursive ignore = Some res.
Proof.
  induction 1 as [| n _ IH]; intros H; [exact H |].
  apply getSubdirs_more_fuel, IH, H.
Qed.

(** X3.  On a directory structure that is well founded ([rank] decreases
    from a directory to each subdirectory it lists), the walk with errors
    ignored ends with a list of directories once the bound exceeds the
    rank of the root, and a larger bound gives the same list. *)
Theorem getSubdirs_completes (rank : string -> nat) (fuel : nat) (path : string)
        (recursive : bool) :
  (forall p ds d, listdir fs p = Some ds -> In d ds ->
                  isdir fs (PosixPath.join p d) = true ->
                  rank (PosixPath.join p d) < rank p) ->
  rank path < fuel ->
  exists rest,
    getSubdirs fs fuel path recursive true = Some (Ok (path :: rest))
    /\ forall fuel', fuel <= fuel' ->
                     getSubdirs fs fuel' path recursive true = Some (Ok (path :: rest)).
Proof.
  intros Hrank Hlt.
  destruct (getSubdirs_terminates fs rank Hrank fuel path recursive true Hlt) as [res Hres].
  destruct res as [dirs | e].
  - destruct (getSubdirs_root_first fs _ _ _ _ _ Hres) as [rest ->].
    exists rest. split; [exact Hres |].
    intros fuel' Hle. exact (getSubdirs_fuel_le _ _ _ _ _ _ Hle Hres).
  - exfalso. exact (getSubdirs_ignoring_never_raises fs _ _ _ _ Hres).
Qed.

End SubdirsShape.

Lemma getSubdirs_shape_witness :
  exists rest,
    ["/mibs"; "/mibs/a"; "/mibs/a/b"] = "/mibs" :: rest
    /\ (true = false -> rest = [])
    /\ Forall (fun d => LocalFile.isdir Cases.nested d = true) rest.
Proof.
  exact (getSubdirs_shape Cases.nested 3 "/mibs" true false
                          ["/mibs"; "/mibs/a"; "/mibs/a/b"] eq_refl).
Defined.

Lemma getSubdirs_raises_for_root_only_witness :
  LocalFile.listdir Scenario.unlistable_subdir "/mibs/a" = None
  /\ LocalFile.getSubdirs Scenario.unlistable_subdir 2 "/mibs" true true
     <> Some (Raise (LocalFile.PySmiError_directory "/mibs/a" LocalFile.OSError)).
Proof.
  destruct (getSubdirs_raises_for_root_only
              Scenario.unlistable_subdir 1 "/mibs/a" true false
              (LocalFile.PySmiError_directory "/mibs/a" LocalFile.OSError) eq_refl)
    as (_ & _ & Hl & _ & Hnever).
  split; [exact Hl | apply Hnever].
Defined.

Lemma getSubdirs_completes_witness :
  exists rest,
    LocalFile.getSubdirs Cases.nested 3 "/mibs" true true = Some (Ok ("/mibs" :: rest))
    /\ forall fuel', 3 <= fuel' ->
                     LocalFile.getSubdirs Cases.nested fuel' "/mibs" true true
                     = Some (Ok ("/mibs" :: rest)).
Proof.
  apply (getSubdirs_completes Cases.nested Cases.nested_rank 3 "/mibs" true).
  - intros p ds d Hl Hin Hd.
    cbv [Cases.nested Scenario.fs_of Scenario.lookup_node LocalFile.listdir
         List.find fst] in Hl.
    destruct (String.eqb_spec "/mibs" p) as [<- | _].
    { injection Hl as <-. simpl in Hin.
      destruct Hin as [<- | [<- | []]]; [vm_compute; lia |].
      vm_compute in Hd. discriminate Hd. }
    destruct (String.eqb_spec "/mibs/a" p) as [<- | _].
    { injection Hl as <-. simpl in Hin.
      destruct Hin as [<- | []]. vm_compute. lia. }
    destruct (String.eqb_spec "/mibs/a/b" p) as [<- | _].
    { injection Hl as <-. destruct Hin. }
    destruct (String.eqb_spec "/mibs/readme.txt" p); discriminate Hl.
  - vm_compute. lia.
Defined.

(** ** The index, loaded once *)

(** X4.  Once [getMibVariants] has returned with the index in use, every
    later call, for any name and whatever the file system has become,
    answers from the index loaded the first time and leaves the reader as
    it is: the index file is not read again. *)
Theorem getMibVariants_loads_once
        (fs fs' : LocalFile.FileSystem) (baseVariants : string -> list (string * string))
        (r r1 : LocalFile.FileReader) (mibname later : string)
        (vs : list (string * string)) :
  LocalFile.useIndexFile r = true ->
  LocalFile.getMibVariants fs baseVariants r mibname = (Ok vs, r1) ->
  LocalFile.getMibVariants fs' baseVariants r1 later
  = (Ok (match LocalFile._mibIndex r1 !! later with
         | Some indexed => [(later, indexed)]
         | None => baseVariants later
         end), r1).
Proof.
  intros Hu Hv.
  assert (Hl : LocalFile._indexLoaded r1 = true).
  { unfold LocalFile.getMibVariants in Hv. rewrite Hu in Hv.
    destruct (LocalFile._indexLoaded r) eqn:Hl; simpl in Hv;
      repeat case_match; try discriminate; injection Hv as _ <-; simplify_eq; auto. }
  destruct (getMibVariants_config fs baseVariants r r1 mibname _ Hv) as (_ & _ & Hu1 & _).
  unfold LocalFile.getMibVariants. rewrite Hu1, Hu, Hl.
  destruct (LocalFile._mibIndex r1 !! later); reflexivity.
Qed.

Lemma getMibVariants_loads_once_witness :
  LocalFile.getMibVariants
    Scenario.tab_index Scenario.two_suffixes
    (snd (LocalFile.getMibVariants Scenario.with_index Scenario.two_suffixes
                                   (Scenario.reader true true true 1000) "M"))
    "FOO-MIB"
  = (Ok [("FOO-MIB", "foo.mib")],
     snd (LocalFile.getMibVariants Scenario.with_index Scenario.two_suffixes
                                   (Scenario.reader true true true 1000) "M")).
Proof.
  set (first := LocalFile.getMibVariants Scenario.with_index Scenario.two_suffixes
                                         (Scenario.reader true true true 1000) "M").
  assert (Hfirst : first = (Ok (Scenario.two_suffixes "M"), snd first))
    by (vm_compute; reflexivity).
  rewrite (getMibVariants_loads_once
             Scenario.with_index Scenario.tab_index Scenario.two_suffixes
             (Scenario.reader true true true 1000) (snd first) "M" "FOO-MIB"
             (Scenario.two_suffixes "M") eq_refl Hfirst).
  vm_compute. reflexivity.
Defined.

(** ** Keys and values of the index *)

Lemma rstrip_idempotent (s : string) : PyStr.rstrip (PyStr.rstrip s) = PyStr.rstrip s.
Proof.
  induction s as [| c s IH]; simpl; [reflexivity |].
  destruct (PyStr.rstrip s) as [| x r'] eqn:Hr.
  - destruct (PyStr.isspace c) eqn:Hc; simpl; [reflexivity |]. rewrite Hc. reflexivity.
  - change (PyStr.rstrip (String c (String x r')))
      with (match PyStr.rstrip (String x r') with
            | EmptyString => if PyStr.isspace c then EmptyString else String c EmptyString
            | r => String c r
            end).
    rewrite IH. reflexivity.
Qed.

(** What [lstrip] returns does not begin with white space. *)
Lemma lstrip_head (s : string) :
  PyStr.lstrip s = "" \/ exists c s', PyStr.lstrip s = String c s' /\ PyStr.isspace c = false.
Proof.
  induction s as [| c s IH]; simpl; [auto |].
  destruct (PyStr.isspace c) eqn:Hc; [exact IH | right; eauto].
Qed.

(** [rstrip] keeps a first character that is not white space. *)
Lemma rstrip_keeps_head (c : ascii) (s : string) :
  PyStr.isspace c = false -> exists u, PyStr.rstrip (String c s) = String c u.
Proof.
  intros Hc. simpl. destruct (PyStr.rstrip s); [rewrite Hc |]; eauto.
Qed.

Lemma strip_idempotent (s : string) : PyStr.strip (PyStr.strip s) = PyStr.strip s.
Proof.
  unfold PyStr.strip.
  destruct (lstrip_head s) as [-> | (c & s' & -> & Hc)]; [reflexivity |].
  destruct (rstrip_keeps_head c s' Hc) as [u Hu].
  assert (Hl : PyStr.lstrip (PyStr.rstrip (String c s')) = PyStr.rstrip (String c s')).
  { rewrite Hu. simpl. rewrite Hc. reflexivity. }
  rewrite Hl. apply rstrip_idempotent.
Qed.

Lemma index_lines_stripped (lines : list string) :
  forall m : gmap string string,
    (forall k v, m !! k = Some v -> PyStr.strip k = k /\ PyStr.strip v = v) ->
    forall k v, LocalFile.index_lines lines m !! k = Some v ->
                PyStr.strip k = k /\ PyStr.strip v = v.
Proof.
  induction lines as [| line rest IH]; intros m Hm; simpl; [exact Hm |].
  destruct (LocalFile.index_entry line) as [key value] eqn:He.
  apply IH. intros k v.
  unfold LocalFile.index_entry in He.
  destruct (PyStr.partition PyStr.SPACE line) as [[h sep] t].
  injection He as <- <-.
  destruct (decide (PyStr.strip h = k)) as [<- | Hne].
  - rewrite lookup_insert_eq. intros [= <-]. split; apply strip_idempotent.
  - rewrite lookup_insert_ne by exact Hne. apply Hm.
Qed.

(** X5.  Whatever the index file holds, no key and no value of the
    loaded index begins or ends with white space: stripping either one
    again changes nothing. *)
Theorem loadIndex_entries_stripped
        (fs : LocalFile.FileSystem) (indexFile key value : string)
        (mibIndex : gmap string string) :
  LocalFile.loadIndex fs indexFile = Ok mibIndex ->
  mibIndex !! key = Some value ->
  PyStr.strip key = key /\ PyStr.strip value = value.
Proof.
  unfold LocalFile.loadIndex.
  destruct (LocalFile.path_exists fs indexFile);
    [| intros [= <-]; rewrite lookup_empty; discriminate].
  destruct (LocalFile.read_text fs indexFile) as [text | |];
    [| intros [= <-]; rewrite lookup_empty; discriminate | discriminate].
  intros [= <-].
  apply index_lines_stripped. intros k v. rewrite lookup_empty. discriminate.
Qed.

Lemma loadIndex_entries_stripped_witness :
  PyStr.strip "FOO-MIB" = "FOO-MIB" /\ PyStr.strip "foo.mib" = "foo.mib".
Proof.
  apply (loadIndex_entries_stripped
           Scenario.with_index "/mibs/.index" "FOO-MIB" "foo.mib"
           (LocalFile.index_lines (PyStr.readlines "FOO-MIB foo.mib") ∅)).
  - vm_compute. reflexivity.
  - vm_compute. reflexivity.
Defined.


(** ** An index file that is not text *)

(** X24.  An index file that is there and is not text: on the first use
    of the index, reading it raises [UnicodeDecodeError], which neither
    [loadIndex] nor [getMibVariants] nor [getData] catches; the reader is
    left as it was, so that the next call reads the file again. *)
Theorem loadIndex_undecodable
      (fs : LocalFile.FileSystem) (decode : bytes -> string)
      (baseVariants : string -> list (string * string))
      (r : LocalFile.FileReader) (mibname : string) (dir : string) (dirs : list string) :
  LocalFile.useIndexFile r = true ->
  LocalFile._indexLoaded r = false ->
  LocalFile.path_exists fs (PosixPath.join (LocalFile._path r) (LocalFile.indexFile r)) = true ->
  LocalFile.read_text fs (PosixPath.join (LocalFile._path r) (LocalFile.indexFile r))
  = LocalFile.TextUndecodable ->
  LocalFile.getMibVariants fs baseVariants r mibname
  = (Raise (LocalFile.UnicodeDecodeError
              (PosixPath.join (LocalFile._path r) (LocalFile.indexFile r))), r)
  /\ LocalFile.getData_dirs fs decode baseVariants r mibname (dir :: dirs)
     = (Raise (LocalFile.UnicodeDecodeError
                 (PosixPath.join (LocalFile._path r) (LocalFile.indexFile r))), r).
Proof.
  intros Hu Hl He Hr.
  assert (Hv : LocalFile.getMibVariants fs baseVariants r mibname
               = (Raise (LocalFile.UnicodeDecodeError
                           (PosixPath.join (LocalFile._path r) (LocalFile.indexFile r))), r)).
  { unfold LocalFile.getMibVariants, LocalFile.loadIndex. rewrite Hu, Hl, He, Hr.
    reflexivity. }
  split; [exact Hv |]. simpl. rewrite Hv. reflexivity.
Qed.

Lemma loadIndex_undecodable_witness :
  LocalFile.getData_dirs Cases.binary_index string_of_list_byte Scenario.two_suffixes
                         (Scenario.reader false true true 1000) "M" ["/mibs"]
  = (Raise (LocalFile.UnicodeDecodeError "/mibs/.index"),
     Scenario.reader false true true 1000).
Proof.
  exact (proj2 (loadIndex_undecodable
                  Cases.binary_index string_of_list_byte Scenario.two_suffixes
                  (Scenario.reader false true true 1000) "M" "/mibs" []
                  eq_refl eq_refl eq_refl eq_refl)).
Defined.

(** ** Reading one file *)

Section FetchProperties.

Import LocalFile.

Variable fs : FileSystem.


(** X7.  Reading a file raises the too-large error exactly when
    [os.stat] and the read succeed and the file holds at least as many
    bytes as the (non-negative) cap: a file above the cap is rejected like
    one exactly at it. *)
Theorem fetch_file_too_large_iff (n : Z) (f f' : string) :
  fetch_file fs n f = Raise (Caught (TooLarge f'))
  <-> f' = f
      /\ (exists mt, stat_mtime fs f = Some mt)
      /\ (exists content, read_binary fs f = Some content
                          /\ (0 <= n <= Z.of_nat (length content))%Z).
Proof.
  unfold fetch_file, read_upto. split.
  - destruct (stat_mtime fs f) as [mt |]; [| discriminate].
    destruct (read_binary fs f) as [content |]; [| discriminate].
    destruct (Z.ltb_spec n (-1)); [discriminate |].
    destruct (Z.ltb_spec n 0).
    + destruct (Z.eqb_spec (Z.of_nat (length content)) n); [lia | discriminate].
    + destruct (Z.eqb_spec (Z.of_nat (length (firstn (Z.to_nat n) content))) n) as [He | He];
        [| discriminate].
      intros [= <-]. split; [reflexivity |]. split; [eauto |].
      exists content. split; [reflexivity |]. rewrite length_firstn in He. lia.
  - intros (-> & (mt & ->) & (content & -> & Hn)).
    destruct (Z.ltb_spec n (-1)); [lia |].
    destruct (Z.ltb_spec n 0); [lia |].
    destruct (Z.eqb_spec (Z.of_nat (length (firstn (Z.to_nat n) content))) n) as [He | He];
      [reflexivity |].
    rewrite length_firstn in He. lia.
Qed.

End FetchProperties.


Lemma fetch_file_too_large_iff_witness :
  LocalFile.fetch_file Scenario.four_bytes 3 "/mibs/M.txt"
  = Raise (LocalFile.Caught (LocalFile.TooLarge "/mibs/M.txt")).
Proof.
  apply (proj2 (fetch_file_too_large_iff Scenario.four_bytes 3 "/mibs/M.txt" "/mibs/M.txt")).
  split; [reflexivity |]. split; [exists 7%Z; reflexivity |].
  exists (list_byte_of_string "ABCD"). split; [reflexivity |]. simpl. lia.
Defined.

(** ** What [getData] returns and raises *)

Section GetDataOutcomes.

Import LocalFile.

Variable fs : FileSystem.
Variable decode : bytes -> string.
Variable baseVariants : string -> list (string * string).

(** The loop over the variants leaves at the first variant that names an
    existing regular file, with the outcome of reading that file. *)
Lemma getData_variants_some (r : FileReader) (dir : string)
      (vs : list (string * string)) (res : result exn (MibInfo * string)) :
  getData_variants fs decode r dir vs = Some res ->
  exists pre mibalias mibfile post,
    vs = (pre ++ (mibalias, mibfile) :: post)%list
    /\ Forall (fun v => candidate fs (PosixPath.join dir (snd v)) = false) pre
    /\ candidate fs (PosixPath.join dir mibfile) = true
    /\ res = match fetch_file fs (maxMibSize r) (PosixPath.join dir mibfile) with
             | Ok (mt, mibData) =>
                 Ok ({| path := "file://" +:+ PosixPath.join dir mibfile;
                        file := mibfile; name := mibalias; mtime := mt |},
                     decode mibData)
             | Raise (Caught cause) =>
                 if negb (ignoreErrors r)
                 then Raise (PySmiError_file (PosixPath.join dir mibfile) cause)
                 else Raise (PySmiReaderFileNotModifiedError (PosixPath.join dir mibfile))
             | Raise (Uncaught e) => Raise e
             end.
Proof.
  induction vs as [| [a f] vs IH]; simpl; [discriminate |].
  destruct (path_exists fs (PosixPath.join dir f) && isfile fs (PosixPath.join dir f)) eqn:Hc.
  - intros H. exists [], a, f, vs. split; [reflexivity |]. split; [constructor |].
    split; [exact Hc |].
    destruct (fetch_file fs (maxMibSize r) (PosixPath.join dir f)) as [[mt d] | [c | e]].
    + injection H as <-. reflexivity.
    + destruct (negb (ignoreErrors r)); injection H as <-; reflexivity.
    + injection H as <-. reflexivity.
  - intros H. destruct (IH H) as (pre & a' & f' & post & -> & Hpre & Hcand & Hres).
    exists ((a, f) :: pre), a', f', post. split; [reflexivity |].
    split; [constructor; assumption |]. split; assumption.
Qed.

(** The search leaves at the first directory in which some variant names
    an existing regular file. *)
Lemma search_outcome (r : FileReader) (mibname : string)
      (vs : list (string * string)) (dirs : list string) :
  (search fs decode r mibname vs dirs = Raise (PySmiReaderFileNotFoundError mibname)
   /\ Forall (fun d => Forall (fun v => candidate fs (PosixPath.join d (snd v)) = false) vs)
             dirs)
  \/ (exists before dir after res,
         dirs = (before ++ dir :: after)%list
         /\ Forall (fun d => Forall (fun v => candidate fs (PosixPath.join d (snd v)) = false)
                                    vs) before
         /\ getData_variants fs decode r dir vs = Some res
         /\ search fs decode r mibname vs dirs = res).
Proof.
  induction dirs as [| d ds IH]; simpl.
  - left. split; [reflexivity | constructor].
  - destruct (getData_variants fs decode r d vs) as [res |] eqn:Hv.
    + right. exists [], d, ds, res. repeat split; auto.
    + assert (Hd : Forall (fun v => candidate fs (PosixPath.join d (snd v)) = false) vs).
      { clear IH. induction vs as [| [a f] vs IHv]; [constructor |].
        simpl in Hv.
        destruct (path_exists fs (PosixPath.join d f) && isfile fs (PosixPath.join d f))
          eqn:Hc.
        - exfalso.
          destruct (fetch_file fs (maxMibSize r) (PosixPath.join d f))
            as [[mt md] | [c | e]]; [discriminate | | discriminate].
          destruct (negb (ignoreErrors r)); discriminate.
        - constructor; [exact Hc | exact (IHv Hv)]. }
      destruct IH as [[Hnf Hall] | (before & dir & after & res & -> & Hb & Hres & Hs)].
      * left. split; [exact Hnf | constructor; assumption].
      * right. exists (d :: before), dir, after, res.
        split; [reflexivity |]. split; [constructor; assumption |]. split; assumption.
Qed.

(** [getData] is the search over the directories of [getSubdirs] with the
    variants of the first call of [getMibVariants]. *)
Lemma getData_is_search (fuel : nat) (r r' : FileReader) (mibname : string)
      (dirs : list string) (vs : list (string * string)) :
  getSubdirs fs fuel (_path r) (_recursive r) (ignoreErrors r) = Some (Ok dirs) ->
  getMibVariants fs baseVariants r mibname = (Ok vs, r') ->
  getData fs decode baseVariants fuel r mibname
  = Some (search fs decode r mibname vs dirs, r').
Proof.
  intros Hsub Hv. unfold getData. rewrite Hsub.
  destruct (getSubdirs_root_first fs _ _ _ _ _ Hsub) as [rest ->].
  rewrite (getData_dirs_search fs decode baseVariants mibname vs rest _ r r' Hv).
  reflexivity.
Qed.


(** When [getMibVariants] raises, so does [getData], in the first
    directory. *)
Lemma getData_variants_raised (fuel : nat) (r r' : FileReader) (mibname : string)
      (dirs : list string) (e : exn) :
  getSubdirs fs fuel (_path r) (_recursive r) (ignoreErrors r) = Some (Ok dirs) ->
  getMibVariants fs baseVariants r mibname = (Raise e, r') ->
  getData fs decode baseVariants fuel r mibname = Some (Raise e, r').
Proof.
  intros Hsub Hv. unfold getData. rewrite Hsub.
  destruct (getSubdirs_root_first fs _ _ _ _ _ Hsub) as [rest ->].
  simpl. rewrite Hv. reflexivity.
Qed.

(** X8.  [getData] raises the not-found error exactly when no variant
    names an existing regular file in any of the directories searched. *)
Theorem getData_not_found_iff (fuel : nat) (r r' : FileReader) (mibname : string)
        (dirs : list string) (vs : list (string * string)) :
  getSubdirs fs fuel (_path r) (_recursive r) (ignoreErrors r) = Some (Ok dirs) ->
  getMibVariants fs baseVariants r mibname = (Ok vs, r') ->
  getData fs decode baseVariants fuel r mibname
  = Some (Raise (PySmiReaderFileNotFoundError mibname), r')
  <-> Forall (fun d => Forall (fun v => candidate fs (PosixPath.join d (snd v)) = false) vs)
             dirs.
Proof.
  intros Hsub Hv. rewrite (getData_is_search fuel r r' mibname dirs vs Hsub Hv). split.
  - intros [= Hs].
    destruct (search_outcome r mibname vs dirs)
      as [[_ Hall] | (before & dir & after & res & _ & _ & Hres & Hs')]; [exact Hall |].
    exfalso. rewrite Hs in Hs'. subst res.
    destruct (getData_variants_some r dir vs _ Hres) as (pre & a & f & post & _ & _ & _ & He).
    destruct (fetch_file fs (maxMibSize r) (PosixPath.join dir f))
      as [[mt d] | [c | e]] eqn:Hf; [discriminate | |].
    + destruct (negb (ignoreErrors r)); discriminate.
    + destruct (fetch_file_uncaught fs _ _ _ Hf) as [_ ->]. discriminate.
  - intros Hall. rewrite <- (app_nil_r dirs). rewrite search_skip by exact Hall.
    reflexivity.
Qed.

(** X9.  What [getData] returns is always the complete content of an
    existing regular file: the file named by one of the variants in one of
    the directories searched, with no variant before it and no directory
    before that one naming an existing regular file; the [MibInfo] gives
    that file's URL, file name, alias and modification time. *)
Theorem getData_found_sound (fuel : nat) (r r' : FileReader) (mibname : string)
        (info : MibInfo) (text : string) :
  getData fs decode baseVariants fuel r mibname = Some (Ok (info, text), r') ->
  exists before dir after pre post content,
    getSubdirs fs fuel (_path r) (_recursive r) (ignoreErrors r)
    = Some (Ok (before ++ dir :: after)%list)
    /\ fst (getMibVariants fs baseVariants r mibname)
       = Ok (pre ++ (name info, file info) :: post)%list
    /\ Forall (fun d => Forall (fun v => candidate fs (PosixPath.join d (snd v)) = false)
                               (pre ++ (name info, file info) :: post)%list) before
    /\ Forall (fun v => candidate fs (PosixPath.join dir (snd v)) = false) pre
    /\ candidate fs (PosixPath.join dir (file info)) = true
    /\ path info = "file://" +:+ PosixPath.join dir (file info)
    /\ stat_mtime fs (PosixPath.join dir (file info)) = Some (mtime info)
    /\ read_binary fs (PosixPath.join dir (file info)) = Some content
    /\ text = decode content.
Proof.
  intros H.
  destruct (getSubdirs fs fuel (_path r) (_recursive r) (ignoreErrors r))
    as [[dirs | e] |] eqn:Hsub;
    [| unfold getData in H; rewrite Hsub in H; discriminate
     | unfold getData in H; rewrite Hsub in H; discriminate].
  destruct (getMibVariants fs baseVariants r mibname) as [[vs | e] r1] eqn:Hv;
    [| rewrite (getData_variants_raised fuel r r1 mibname dirs e Hsub Hv) in H;
       discriminate].
  rewrite (getData_is_search fuel r r1 mibname dirs vs Hsub Hv) in H.
  injection H as Hs _.
  destruct (search_outcome r mibname vs dirs)
    as [[Hnf _] | (before & dir & after & res & -> & Hb & Hres & Hs')];
    [rewrite Hs in Hnf; discriminate |].
  rewrite Hs in Hs'. subst res.
  destruct (getData_variants_some r dir vs _ Hres)
    as (pre & a & f & post & -> & Hpre & Hc & He).
  destruct (fetch_file fs (maxMibSize r) (PosixPath.join dir f))
    as [[mt d] | [c | e]] eqn:Hf;
    [| destruct (negb (ignoreErrors r)); discriminate | discriminate].
  injection He as -> ->. simpl.
  destruct (fetch_file_ok_inv fs _ _ _ _ Hf) as [Hst Hrd].
  exists before, dir, after, pre, post, d. repeat split; assumption.
Qed.

End GetDataOutcomes.

Lemma getData_not_found_iff_witness :
  LocalFile.getData Cases.nested string_of_list_byte Scenario.two_suffixes 1
                    (Scenario.reader false false true 1000) "absent"
  = Some (Raise (LocalFile.PySmiReaderFileNotFoundError "absent"),
          Scenario.reader false false true 1000).
Proof.
  apply (proj2 (getData_not_found_iff
                  Cases.nested string_of_list_byte Scenario.two_suffixes 1
                  (Scenario.reader false false true 1000)
                  (Scenario.reader false false true 1000) "absent" ["/mibs"]
                  (Scenario.two_suffixes "absent") eq_refl eq_refl)).
  repeat first [reflexivity | apply List.Forall_cons | apply List.Forall_nil].
Defined.

Lemma getData_found_sound_witness :
  exists dir content,
    LocalFile.read_binary Scenario.four_bytes (PosixPath.join dir "M.txt") = Some content
    /\ "ABCD" = string_of_list_byte content.
Proof.
  destruct (getData_found_sound
              Scenario.four_bytes string_of_list_byte Scenario.two_suffixes 1
              (Scenario.reader false false true 5) (Scenario.reader false false true 5) "M"
              {| LocalFile.path := "file:///mibs/M.txt"; LocalFile.file := "M.txt";
                 LocalFile.name := "M"; LocalFile.mtime := 7 |} "ABCD" eq_refl)
    as (_ & dir & _ & _ & _ & content & _ & _ & _ & _ & _ & _ & _ & Hread & Htext).
  exists dir, content. split; [exact Hread | exact Htext].
Defined.

Section GetDataErrors.

Import LocalFile.

Variable fs : FileSystem.
Variable decode : bytes -> string.
Variable baseVariants : string -> list (string * string).


End GetDataErrors.


(** ** The generator: errors and composition *)

Section GeneratorOutcomes.

Import LocalFile.

Variable fs : FileSystem.
Variable decode : bytes -> string.
Variable r : FileReader.



(** X12.  The generator over two lists of directories one after the
    other: if the first part raises, the whole does, having yielded the
    same entries; otherwise the whole yields the entries of the first part
    followed by those of the second, and ends as the second does. *)
Theorem dataGenerator_dirs_sequence (before after : list string) :
  forall f, exists f',
    dataGenerator_dirs fs decode r (before ++ after)%list f
    = match dataGenerator_dirs fs decode r before f with
      | (first, Some e) => (first, Some e)
      | (first, None) =>
          ((first ++ fst (dataGenerator_dirs fs decode r after f'))%list,
           snd (dataGenerator_dirs fs decode r after f'))
      end.
Proof.
  induction before as [| d ds IH]; intros f.
  - exists f. simpl. destruct (dataGenerator_dirs fs decode r after f). reflexivity.
  - simpl.
    destruct (match listdir fs d with
              | Some mibfiles => dataGenerator_files fs decode r d mibfiles f
              | None => ([], f, Some (Caught OSError))
              end) as [[ys g] err].
    destruct (IH g) as [f' Hrec]. exists f'.
    assert (Hgo : (let '(later, e) := dataGenerator_dirs fs decode r (ds ++ after)%list g in
                   ((ys ++ later)%list, e))
                  = match (let '(later, e) := dataGenerator_dirs fs decode r ds g in
                           ((ys ++ later)%list, e)) with
                    | (first, Some e) => (first, Some e)
                    | (first, None) =>
                        ((first ++ fst (dataGenerator_dirs fs decode r after f'))%list,
                         snd (dataGenerator_dirs fs decode r after f'))
                    end).
    { rewrite Hrec. destruct (dataGenerator_dirs fs decode r ds g) as [first [e |]];
        [reflexivity |]. rewrite app_assoc. reflexivity. }
    destruct err as [[cause | e0] |]; [| reflexivity | exact Hgo].
    destruct (negb (ignoreErrors r)); [reflexivity | exact Hgo].
Qed.



(** X14.  A reader that is not recursive and does not ignore errors, on
    a root that cannot be listed: the [except] clause formats its message
    with the variable [f], which no iteration has bound yet, so the
    generator ends with [UnboundLocalError] instead of the access error. *)
Theorem dataGenerator_unlistable_root (fuel : nat) :
  _recursive r = false ->
  ignoreErrors r = false ->
  listdir fs (_path r) = None ->
  dataGenerator fs decode fuel r = Some ([], Some (UnboundLocalError "f")).
Proof.
  intros Hr Hi Hl. unfold dataGenerator. rewrite Hr.
  destruct fuel; simpl; rewrite Hl, Hi; reflexivity.
Qed.

End GeneratorOutcomes.



Lemma dataGenerator_unlistable_root_witness :
  LocalFile.dataGenerator Scenario.unlistable_subdir string_of_list_byte 0
                          (LocalFile.init "/mibs/a" false false false 1000)
  = Some ([], Some (LocalFile.UnboundLocalError "f")).
Proof.
  exact (dataGenerator_unlistable_root
           Scenario.unlistable_subdir string_of_list_byte
           (LocalFile.init "/mibs/a" false false false 1000) 0 eq_refl eq_refl eq_refl).
Defined.

(** * Further properties of the writer *)

Section WriterFrame.

Import PyFile.

Variable encode : string -> option bytes.

(** The temporary file is one of the names tried, in a directory that
    exists. *)
Lemma mkstemp_inv (env : Env) (st st1 : Store) (d tfile : string) :
  mkstemp env st d = Some (tfile, st1) ->
  In tfile (map (PosixPath.join d) (tmp_names env))
  /\ d ∈ dirs st
  /\ st1 = with_files st (<[tfile := []]> (files st)).
Proof.
  unfold mkstemp.
  destruct (mkstemp_fails env || negb (bool_decide (d ∈ dirs st))) eqn:Hc; [discriminate |].
  destruct (List.find _ _) as [t |] eqn:Hfind; [| discriminate].
  intros [= <- <-]. apply find_some in Hfind as [Hin _].
  apply orb_false_iff in Hc as [_ Hd]. apply negb_false_iff, bool_decide_eq_true in Hd.
  auto.
Qed.

(** The [try] of [putData] touches no file besides the destination and
    the temporary names, and no directory. *)
Lemma write_file_frame (env : Env) (st st1 : Store) (d pyfile data : string)
      (tfile : option string) (c : option try_exit) :
  write_file encode env st d pyfile data = (st1, tfile, c) ->
  dirs st1 = dirs st
  /\ (forall t, tfile = Some t ->
                In t (map (PosixPath.join d) (tmp_names env)) /\ d ∈ dirs st)
  /\ (forall p, p <> pyfile -> ~ In p (map (PosixPath.join d) (tmp_names env)) ->
                files st1 !! p = files st !! p).
Proof.
  unfold write_file.
  destruct (PyStr.contains PyStr.NUL d);
    [intros [= <- <- _]; split; [reflexivity |]; split; [discriminate | reflexivity] |].
  destruct (mkstemp env st d) as [[t st0] |] eqn:Hmk.
  - apply mkstemp_inv in Hmk as (Hin & Hd & ->).
    assert (Hne : forall p, ~ In p (map (PosixPath.join d) (tmp_names env)) -> t <> p)
      by (intros p Hp ->; exact (Hp Hin)).
    destruct (encode data) as [raw |];
      [destruct (write_fails env);
       [| destruct (close_fails env);
          [| destruct (PyStr.contains PyStr.NUL pyfile);
             [| destruct (rename_fails env || _)]]] |];
      intros [= <- <- _]; simpl;
      (split; [reflexivity |]); (split; [intros t' [= <-]; auto |]);
      intros p Hp Hnt; specialize (Hne p Hnt);
      rewrite ?lookup_insert_ne, ?lookup_delete_ne, ?lookup_insert_ne by congruence;
      reflexivity.
  - intros [= <- <- _]. split; [reflexivity |]. split; [discriminate | reflexivity].
Qed.

Lemma unlink_and_raise_frame (env : Env) (st st' : Store) (t : option string)
      (e : exn) (res : result exn unit) :
  unlink_and_raise env st t e = (st', res) ->
  dirs st' = dirs st
  /\ forall p, t <> Some p -> files st' !! p = files st !! p.
Proof.
  unfold unlink_and_raise. destruct t as [t |]; [| intros [= <- _]; auto].
  destruct (PyStr.truthy t && path_exists st t); [| intros [= <- _]; auto].
  destruct (unlink_fails env); intros [= <- _]; [auto |]. simpl.
  split; [reflexivity |]. intros p Hp. apply lookup_delete_ne. congruence.
Qed.

(** X15.  However a store ends (success, any of the errors, a dry run),
    it creates, changes or removes no file other than the destination,
    the temporary names of [mkstemp] and the byte-code file of the
    compilation; and it removes no directory. *)
Theorem putData_frame
        (w : PyFileWriter) (env : Env) (st st' : Store)
        (mibname data : string) (comments : list string) (dryRun : bool)
        (res : result exn unit) (p : string) :
  putData encode w env st mibname data comments dryRun = (st', res) ->
  dirs st ⊆ dirs st'
  /\ (p <> pyfile_of w mibname ->
      ~ In p (map (PosixPath.join (_path w)) (tmp_names env)) ->
      (forall code, compile_result env <> Compiled p code) ->
      files st' !! p = files st !! p).
Proof.
  unfold putData. destruct dryRun; [intros [= <- _]; auto |].
  destruct (prepare w env st) as [st0 r] eqn:Hprep.
  destruct (prepare_frame w env st st0 r Hprep) as [Hfiles Hdirs].
  destruct r as [e |]; [intros [= <- _]; rewrite Hfiles; auto |].
  destruct (write_file encode env _ _ _ _) as [[st1 tfile] c] eqn:Hw.
  apply write_file_frame in Hw as (Hd1 & Ht & Hf1).
  rewrite Hfiles in Hf1.
  destruct c as [[cause | e] |].
  - intros Hu. apply unlink_and_raise_frame in Hu as (Hd2 & Hf2).
    split; [rewrite Hd2, Hd1; exact Hdirs |].
    intros Hp Hnt _. rewrite Hf2; [exact (Hf1 p Hp Hnt) |].
    intros ->. exact (Hnt (proj1 (Ht p eq_refl))).
  - intros [= <- _]. split; [rewrite Hd1; exact Hdirs | intros; auto].
  - unfold compile_step. destruct (pyCompile w).
    + destruct (compile_result env) as [cfile code | |] eqn:Hr.
      * intros [= <- _]. simpl. split; [rewrite Hd1; exact Hdirs |].
        intros Hp Hnt Hnc. rewrite lookup_insert_ne; [exact (Hf1 p Hp Hnt) |].
        intros ->. exact (Hnc code eq_refl).
      * intros [= <- _]. split; [rewrite Hd1; exact Hdirs | intros; auto].
      * intros Hu. apply unlink_and_raise_frame in Hu as (Hd2 & Hf2).
        split; [rewrite Hd2, Hd1; exact Hdirs |].
        intros Hp Hnt _. rewrite Hf2; [exact (Hf1 p Hp Hnt) | congruence].
    + intros [= <- _]. split; [rewrite Hd1; exact Hdirs | intros; auto].
Qed.

(** X16.  After a successful store that is not a dry run, the root
    directory of the writer exists as a directory. *)
Theorem putData_success_root_exists
        (w : PyFileWriter) (env : Env) (st st' : Store)
        (mibname data : string) (comments : list string) :
  putData encode w env st mibname data comments false = (st', Ok tt) ->
  _path w ∈ dirs st'.
Proof.
  unfold putData.
  destruct (prepare w env st) as [st0 [e |]]; [discriminate |].
  destruct (write_file encode env _ _ _ _) as [[st1 tfile] c] eqn:Hw.
  assert (Hroot : c = None -> _path w ∈ dirs st1).
  { intros ->. pose proof Hw as Hw'. apply write_file_frame in Hw as (Hd1 & Ht & _).
    unfold write_file in Hw'.
    destruct (PyStr.contains PyStr.NUL (_path w)); [discriminate |].
    destruct (mkstemp env _ (_path w)) as [[t st2] |] eqn:Hmk; [| discriminate].
    apply mkstemp_inv in Hmk as (_ & Hd & _). rewrite Hd1. exact Hd. }
  destruct c as [[cause | e] |].
  - unfold unlink_and_raise. repeat case_match; discriminate.
  - discriminate.
  - specialize (Hroot eq_refl). unfold compile_step, unlink_and_raise.
    repeat case_match; intros [= <-]; try discriminate; exact Hroot.
Qed.

End WriterFrame.

Section WriterOutcomes.

Import PyFile.

Variable encode : string -> option bytes.

(** X17.  Every failure of a store is one of five.  The directory error
    (the root is missing and cannot be made) leaves every file as it was
    and removes no directory; the directories [os.makedirs] made before
    it failed stay.  The writing error leaves the files as they were.  The
    compiling error (the compilation crashed) leaves no file at the
    destination.  The [OSError] of [os.unlink] is raised when a removal
    of the clean-up fails, and the file that was to be removed is still
    there.  The [ValueError] of Python itself is raised for a root or a
    destination with a NUL character.  When the removals succeed and no
    NUL is involved, every failure is thus one of the three writer
    errors. *)
Theorem putData_error_kinds
        (w : PyFileWriter) (env : Env) (st st' : Store)
        (mibname data : string) (comments : list string) (dryRun : bool) (e : exn) :
  PyStr.truthy (_path w) = true ->
  putData encode w env st mibname data comments dryRun = (st', Raise e) ->
  dryRun = false
  /\ ((e = PySmiWriterError_directory (_path w)
       /\ files st' = files st /\ dirs st ⊆ dirs st'
       /\ os_path_exists st (_path w) = false /\ makedirs_fails env = true)
      \/ (exists cause, e = PySmiWriterError_writing (pyfile_of w mibname) cause
                        /\ files st' = files st)
      \/ (e = PySmiWriterError_compiling (pyfile_of w mibname) mibname
          /\ pyCompile w = true /\ compile_result env = CompileCrashed
          /\ files st' !! pyfile_of w mibname = None)
      \/ (exists t, e = OSError_unlink t /\ unlink_fails env = true
                    /\ is_Some (files st' !! t))
      \/ (e = ValueError
          /\ (PyStr.contains PyStr.NUL (_path w) = true
              \/ PyStr.contains PyStr.NUL (pyfile_of w mibname) = true))).
Proof.
  intros Hpath. unfold putData. destruct dryRun; [discriminate |].
  intros H. split; [reflexivity |].
  destruct (prepare w env st) as [st0 r] eqn:Hprep.
  destruct (prepare_frame w env st st0 r Hprep) as [Hfiles Hdirs].
  destruct r as [e0 |].
  - injection H as <- <-.
    destruct (prepare_error w env st st0 e0 Hprep) as [Hex [[-> Hm] | [-> Hn]]].
    + left. auto 6.
    + do 4 right. auto.
  - destruct (write_file encode env _ _ _ _) as [[st1 tfile] [[cause | e0] |]] eqn:Hw.
    + apply write_file_failure in Hw. rewrite Hfiles in Hw.
      unfold unlink_and_raise in H. destruct tfile as [t |].
      * destruct Hw as (_ & (n & ->) & (x & Hx) & Hdel).
        rewrite (join_truthy _ n Hpath), (path_exists_file _ _ _ Hx) in H.
        simpl in H. destruct (unlink_fails env) eqn:Hunlink.
        -- injection H as <- <-. do 3 right. left. eauto.
        -- injection H as <- <-. right. left. exists cause. simpl. auto.
      * subst st1. injection H as <- <-. right. left. exists cause. auto.
    + injection H as <- <-.
      destruct (write_file_uncaught encode _ _ _ _ _ _ _ _ Hw)
        as (-> & [(Hd & _) | (_ & Hpy & _)]); do 4 right; auto.
    + apply write_file_success in Hw as (raw & _ & Hpy & _).
      unfold compile_step in H. destruct (pyCompile w); [| discriminate].
      destruct (compile_result env) as [cfile code | |]; try discriminate.
      unfold unlink_and_raise in H.
      rewrite pyfile_of_truthy, (path_exists_file _ _ _ Hpy) in H.
      simpl in H. destruct (unlink_fails env) eqn:Hunlink.
      * injection H as <- <-. do 3 right. left. eauto.
      * injection H as <- <-. simpl. right. right. left.
        repeat split. apply lookup_delete_eq.
Qed.

(** X18.  When the [try] has created the temporary file and then failed,
    and removing the temporary file fails too, the [OSError] of
    [os.unlink] leaves [putData] in place of the writer error, and the
    temporary file stays behind. *)
Theorem putData_unlink_failure_keeps_temp
        (w : PyFileWriter) (env : Env) (st st1 : Store)
        (mibname data : string) (comments : list string)
        (t : string) (cause : write_error) :
  PyStr.truthy (_path w) = true ->
  path_exists st (_path w) = true \/ makedirs_fails env = false ->
  unlink_fails env = true ->
  write_file encode env
             (if path_exists st (_path w) then st else makedirs st (_path w))
             (_path w) (pyfile_of w mibname) (with_comments comments data)
  = (st1, Some t, Some (Caught cause)) ->
  putData encode w env st mibname data comments false = (st1, Raise (OSError_unlink t))
  /\ is_Some (files st1 !! t)
  /\ files st !! t = None.
Proof.
  intros Hpath Hdir Hunlink Hw.
  assert (Hn : PyStr.contains PyStr.NUL (_path w) = false).
  { destruct (PyStr.contains PyStr.NUL (_path w)) eqn:Hn; [| reflexivity].
    rewrite (write_file_nul_dir encode _ _ _ _ _ Hn) in Hw. discriminate. }
  rewrite (putData_unfold encode w env st mibname data comments Hn Hdir), Hw.
  apply write_file_failure in Hw as (Hnew & (n & ->) & (x & Hx) & _).
  rewrite files_prepared in Hnew.
  unfold unlink_and_raise.
  rewrite (join_truthy _ n Hpath), (path_exists_file _ _ _ Hx), Hunlink. simpl.
  split; [reflexivity |]. split; [eauto | exact Hnew].
Qed.



End WriterOutcomes.

(** ** The comment block and the destination name *)

Lemma string_app_assoc (a b c : string) : (a +:+ b) +:+ c = a +:+ (b +:+ c).
Proof.
  induction a as [| x a IH]; [reflexivity |].
  change (String x ((a +:+ b) +:+ c) = String x (a +:+ (b +:+ c))). rewrite IH. reflexivity.
Qed.

Lemma string_app_nil_r (a : string) : a +:+ "" = a.
Proof.
  induction a as [| x a IH]; [reflexivity |].
  change (String x (a +:+ "") = String x a). rewrite IH. reflexivity.
Qed.

Lemma string_length_app (a b : string) :
  String.length (a +:+ b) = String.length a + String.length b.
Proof.
  induction a as [| x a IH]; [reflexivity |].
  change (S (String.length (a +:+ b)) = S (String.length a + String.length b)).
  rewrite IH. reflexivity.
Qed.

Lemma string_app_inv_tail (a b s : string) : a +:+ s = b +:+ s -> a = b.
Proof.
  revert b. induction a as [| x a IH]; intros [| y b] H.
  - reflexivity.
  - exfalso. apply (f_equal String.length) in H.
    rewrite !string_length_app in H. simpl in H. lia.
  - exfalso. apply (f_equal String.length) in H.
    rewrite !string_length_app in H. simpl in H. lia.
  - change (String x (a +:+ s) = String y (b +:+ s)) in H.
    injection H as -> H. rewrite (IH b H). reflexivity.
Qed.

(** Where the text after [s1] starts: at the beginning of a line when
    [s1] ends with LF. *)
Lemma lines_commented_app (s1 s2 : string) :
  forall at_start,
    Cases.lines_commented at_start (s1 +:+ s2)
    = Cases.lines_commented at_start s1
      && Cases.lines_commented
           (match s1 with EmptyString => at_start | _ => PyStr.endswith PyStr.LF s1 end) s2.
Proof.
  induction s1 as [| c s1 IH]; intros at_start; [reflexivity |].
  change (Cases.lines_commented at_start (String c (s1 +:+ s2))
          = Cases.lines_commented at_start (String c s1)
            && Cases.lines_commented (PyStr.endswith PyStr.LF (String c s1)) s2).
  simpl. rewrite IH. destruct s1; simpl; rewrite ?andb_true_r, ?andb_assoc; reflexivity.
Qed.

Lemma lines_commented_no_newline (s : string) :
  PyStr.contains PyStr.LF s = false -> Cases.lines_commented false s = true.
Proof.
  induction s as [| c s IH]; simpl; [reflexivity |].
  intros H. apply orb_false_iff in H as [Hc Hs]. rewrite Hc. exact (IH Hs).
Qed.

Lemma endswith_app_newline (s : string) :
  PyStr.endswith PyStr.LF (s +:+ String PyStr.LF "") = true.
Proof.
  induction s as [| c s IH]; [reflexivity |].
  change (PyStr.endswith PyStr.LF (String c (s +:+ String PyStr.LF "")) = true).
  simpl. destruct (s +:+ String PyStr.LF "") eqn:E; [| exact IH].
  destruct s; discriminate.
Qed.

Lemma endswith_absent (c : ascii) (s : string) :
  PyStr.contains c s = false -> PyStr.endswith c s = false.
Proof.
  induction s as [| x s IH]; simpl; [reflexivity |].
  intros H. apply orb_false_iff in H as [Hx Hs].
  destruct s; [exact Hx | exact (IH Hs)].
Qed.

Lemma endswith_app (c : ascii) (s t : string) :
  PyStr.endswith c t = true -> PyStr.endswith c (s +:+ t) = true.
Proof.
  intros Ht. induction s as [| x s IH]; [exact Ht |].
  change (PyStr.endswith c (String x (s +:+ t)) = true). simpl.
  destruct (s +:+ t) eqn:E; [| exact IH].
  destruct s; [| discriminate]. change (t = "") in E. subst t. discriminate.
Qed.

(** The lines [# x] for the comments [cs], each ended by LF. *)
Lemma comment_lines_commented (cs : list string) :
  Forall (fun x => PyStr.contains PyStr.LF x = false) cs ->
  Cases.lines_commented
    true (String.concat "" (map (fun x => "# " +:+ x +:+ String PyStr.LF "") cs)) = true
  /\ (cs <> [] ->
      PyStr.endswith
        PyStr.LF (String.concat "" (map (fun x => "# " +:+ x +:+ String PyStr.LF "") cs))
      = true).
Proof.
  assert (Hline : forall x, PyStr.contains PyStr.LF x = false ->
                            Cases.lines_commented true ("# " +:+ x +:+ String PyStr.LF "")
                            = true).
  { intros x Hx. change (Cases.lines_commented false (x +:+ String PyStr.LF "") = true).
    rewrite lines_commented_app, (lines_commented_no_newline x Hx).
    destruct x as [| a x]; [reflexivity |].
    rewrite (endswith_absent _ _ Hx). reflexivity. }
  induction 1 as [| x cs Hx Hcs [IH1 IH2]]; [split; [reflexivity | congruence] |].
  destruct cs as [| y cs].
  - simpl. split; [exact (Hline x Hx) | intros _].
    change (PyStr.endswith PyStr.LF (String "#" (String " " (x +:+ String PyStr.LF ""))) = true).
    pose proof (endswith_app_newline x) as He. simpl.
    destruct (x +:+ String PyStr.LF "") eqn:E; [destruct x; discriminate | exact He].
  - change (String.concat "" (map (fun x0 => "# " +:+ x0 +:+ String PyStr.LF "")
                                  (x :: y :: cs)))
      with (("# " +:+ x +:+ String PyStr.LF "")
            +:+ "" +:+ String.concat "" (map (fun x0 => "# " +:+ x0 +:+ String PyStr.LF "")
                                             (y :: cs))).
    change ("" +:+ ?s) with s.
    split.
    + rewrite lines_commented_app, (Hline x Hx).
      change (PyStr.endswith PyStr.LF ("# " +:+ x +:+ String PyStr.LF ""))
        with (PyStr.endswith PyStr.LF (String "#" (String " " (x +:+ String PyStr.LF "")))).
      pose proof (endswith_app_newline x) as He.
      assert (Hend : PyStr.endswith PyStr.LF
                                    (String "#" (String " " (x +:+ String PyStr.LF ""))) = true).
      { simpl. destruct (x +:+ String PyStr.LF "") eqn:E;
          [destruct x; discriminate | exact He]. }
      simpl in Hend |- *. rewrite Hend. exact IH1.
    + intros _. apply endswith_app. apply IH2. discriminate.
Qed.

(** X20.  The comment block of [putData] is put in front of the data and
    does not depend on it.  Without comments there is no block.  When no
    comment contains a line feed, every line of the block begins with [#]
    and the block ends with a line feed, so that the data start on a line
    of their own. *)
Theorem with_comments_block (comments : list string) (data : string) :
  PyFile.with_comments comments data = PyFile.with_comments comments "" +:+ data
  /\ (comments = [] -> PyFile.with_comments comments data = data)
  /\ (comments <> [] ->
      Forall (fun x => PyStr.contains PyStr.LF x = false) comments ->
      Cases.lines_commented true (PyFile.with_comments comments "") = true
      /\ PyStr.endswith PyStr.LF (PyFile.with_comments comments "") = true).
Proof.
  destruct comments as [| c cs]; [repeat split; congruence |].
  set (L := String.concat
              "" (map (fun x => "# " +:+ x +:+ String PyStr.LF "") (c :: cs))).
  assert (Hshape : forall d, PyFile.with_comments (c :: cs) d
                             = String "#" (String PyStr.LF (L +:+ String "#" (String PyStr.LF d))))
    by reflexivity.
  split; [| split; [discriminate |]].
  - rewrite !Hshape.
    change (String "#" (String PyStr.LF (L +:+ String "#" (String PyStr.LF data)))
            = String "#" (String PyStr.LF ((L +:+ String "#" (String PyStr.LF "")) +:+ data))).
    rewrite string_app_assoc. reflexivity.
  - intros _ Hno. rewrite Hshape.
    destruct (comment_lines_commented (c :: cs) Hno) as [Hl He].
    specialize (He ltac:(discriminate)). fold L in Hl, He. split.
    + change (Cases.lines_commented true (L +:+ String "#" (String PyStr.LF "")) = true).
      rewrite lines_commented_app, Hl.
      destruct L; [discriminate He | rewrite He; reflexivity].
    + change (PyStr.endswith
                PyStr.LF (String "#" (String PyStr.LF (L +:+ String "#" (String PyStr.LF ""))))
              = true).
      pose proof (endswith_app PyStr.LF L (String "#" (String PyStr.LF "")) eq_refl) as Ht.
      simpl. destruct (L +:+ String "#" (String PyStr.LF "")) eqn:E; [discriminate Ht |].
      exact Ht.
Qed.

Lemma with_comments_block_witness :
  Cases.lines_commented true (PyFile.with_comments ["by pysmi"; "do not edit"] "") = true
  /\ PyStr.endswith PyStr.LF (PyFile.with_comments ["by pysmi"; "do not edit"] "") = true.
Proof.
  destruct (with_comments_block ["by pysmi"; "do not edit"] "x = 1") as (_ & _ & H).
  apply H; [discriminate |].
  repeat first [reflexivity | apply List.Forall_cons | apply List.Forall_nil].
Defined.

(** The text [os.path.join] puts in front of a relative name. *)
Lemma join_relative (a b : string) :
  PyStr.startswith PosixPath.sep b = false ->
  PosixPath.join a b
  = (if negb (PyStr.truthy a) || PyStr.endswith PosixPath.sep a
     then a else a +:+ String PosixPath.sep "") +:+ b.
Proof.
  intros Hb. unfold PosixPath.join. rewrite Hb.
  destruct (negb (PyStr.truthy a) || PyStr.endswith PosixPath.sep a); [reflexivity |].
  rewrite string_app_assoc. reflexivity.
Qed.

(** X21.  Module names that do not begin with [/] are stored under the
    root of the writer, and two different such names never share a
    destination.  A name that begins with [/] is stored at that absolute
    path with [.py] added, whatever the root is. *)
Theorem pyfile_of_names (w : PyFile.PyFileWriter) (mibname1 mibname2 : string) :
  PyStr.startswith PosixPath.sep mibname1 = false ->
  PyStr.startswith PosixPath.sep mibname2 = false ->
  (exists rest, PyFile.pyfile_of w mibname1 = PyFile._path w +:+ rest)
  /\ (PyFile.pyfile_of w mibname1 = PyFile.pyfile_of w mibname2 -> mibname1 = mibname2)
  /\ (forall absolute, PyStr.startswith PosixPath.sep absolute = true ->
                       PyFile.pyfile_of w absolute = absolute +:+ ".py").
Proof.
  intros H1 H2. unfold PyFile.pyfile_of. simpl.
  rewrite (join_relative _ _ H1), (join_relative _ _ H2).
  set (pre := if negb (PyStr.truthy (PyFile._path w))
                 || PyStr.endswith PosixPath.sep (PyFile._path w)
              then PyFile._path w else PyFile._path w +:+ String PosixPath.sep "").
  split; [| split].
  - subst pre.
    destruct (negb (PyStr.truthy (PyFile._path w))
              || PyStr.endswith PosixPath.sep (PyFile._path w));
      rewrite !string_app_assoc; eauto.
  - intros H. apply string_app_inv_tail in H.
    exact (String.app_inj pre _ _ H).
  - intros absolute Ha. unfold PosixPath.join. rewrite Ha. reflexivity.
Qed.

Lemma pyfile_of_names_witness :
  (PyFile.pyfile_of Scenario.writer "IF-MIB" = PyFile.pyfile_of Scenario.writer "IP-MIB" ->
   "IF-MIB" = "IP-MIB")
  /\ PyFile.pyfile_of Scenario.writer "/etc/passwd" = "/etc/passwd.py".
Proof.
  destruct (pyfile_of_names Scenario.writer "IF-MIB" "IP-MIB" eq_refl eq_refl)
    as (_ & Hinj & Habs).
  split; [exact Hinj | exact (Habs "/etc/passwd" eq_refl)].
Defined.

(** ** The further properties of the writer on a concrete directory *)

Lemma putData_frame_witness :
  PyFile.files (fst (PyFile.putData Scenario.to_bytes Scenario.writer Scenario.rename_failing
                                    Scenario.earlier_store "other" "x = 1" [] false))
  !! "/out/mod.py" = Some (list_byte_of_string "old").
Proof.
  set (run := PyFile.putData Scenario.to_bytes Scenario.writer Scenario.rename_failing
                             Scenario.earlier_store "other" "x = 1" [] false).
  destruct (putData_frame Scenario.to_bytes Scenario.writer Scenario.rename_failing
                          Scenario.earlier_store (fst run) "other" "x = 1" [] false (snd run)
                          "/out/mod.py" (surjective_pairing run)) as [_ Hfiles].
  transitivity (PyFile.files Scenario.earlier_store !! "/out/mod.py");
    [apply Hfiles | vm_compute; reflexivity].
  - discriminate.
  - simpl. intros [H | []]. discriminate H.
  - intros code. discriminate.
Defined.

Lemma putData_success_root_exists_witness :
  "/out" ∈ PyFile.dirs (fst (PyFile.putData Scenario.to_bytes Scenario.writer
                                            (Scenario.calm Scenario.bytecode)
                                            Scenario.empty_store "mod" "x = 1" [] false)).
Proof.
  apply (putData_success_root_exists
           Scenario.to_bytes Scenario.writer (Scenario.calm Scenario.bytecode)
           Scenario.empty_store _ "mod" "x = 1" []).
  vm_compute. reflexivity.
Defined.

Lemma putData_error_kinds_witness :
  (exists cause,
      PyFile.PySmiWriterError_writing "/out/mod.py" PyFile.OSError
      = PyFile.PySmiWriterError_writing (PyFile.pyfile_of Scenario.writer "mod") cause
      /\ PyFile.files (fst (PyFile.putData Scenario.to_bytes Scenario.writer
                                           Scenario.rename_failing Scenario.earlier_store
                                           "mod" "x = 1" [] false))
         = PyFile.files Scenario.earlier_store)
  /\ (exists st',
         PyFile.putData Scenario.to_bytes Cases.deep_writer Cases.makedirs_failing
                        Scenario.empty_store "mod" "x = 1" [] false
         = (st', Raise (PyFile.PySmiWriterError_directory "/srv/out/py"))
         /\ PyFile.files st' = PyFile.files Scenario.empty_store
         /\ PyFile.dirs st' = {[ "/srv" ]}).
Proof.
  split.
  - assert (Hput : PyFile.putData Scenario.to_bytes Scenario.writer Scenario.rename_failing
                                  Scenario.earlier_store "mod" "x = 1" [] false
                   = (fst (PyFile.putData Scenario.to_bytes Scenario.writer
                                          Scenario.rename_failing Scenario.earlier_store
                                          "mod" "x = 1" [] false),
                      Raise (PyFile.PySmiWriterError_writing "/out/mod.py" PyFile.OSError)))
      by (vm_compute; reflexivity).
    destruct (putData_error_kinds
                Scenario.to_bytes Scenario.writer Scenario.rename_failing
                Scenario.earlier_store _ "mod" "x = 1" [] false _ eq_refl Hput)
      as (_ & [(He & _) | [Hwriting | [(He & _) | [(t & He & _) | (He & _)]]]]).
    + discriminate He.
    + exact Hwriting.
    + discriminate He.
    + discriminate He.
    + discriminate He.
  - set (run := PyFile.putData Scenario.to_bytes Cases.deep_writer Cases.makedirs_failing
                               Scenario.empty_store "mod" "x = 1" [] false).
    assert (Hput : run = (fst run, Raise (PyFile.PySmiWriterError_directory "/srv/out/py")))
      by (vm_compute; reflexivity).
    destruct (putData_error_kinds
                Scenario.to_bytes Cases.deep_writer Cases.makedirs_failing
                Scenario.empty_store _ "mod" "x = 1" [] false _ eq_refl Hput)
      as (_ & [(_ & Hfiles & _) | [(c & He & _) | [(He & _) | [(t & He & _) | (He & _)]]]]);
      try discriminate He.
    exists (fst run). split; [exact Hput |]. split; [exact Hfiles |].
    vm_compute. reflexivity.
Defined.

Lemma putData_unlink_failure_keeps_temp_witness :
  snd (PyFile.putData Scenario.to_bytes Scenario.writer Cases.unlink_failing
                      Scenario.earlier_store "mod" "x = 1" [] false)
  = Raise (PyFile.OSError_unlink "/out/tmpk3v9_x1a")
  /\ is_Some (PyFile.files
                (fst (PyFile.putData Scenario.to_bytes Scenario.writer Cases.unlink_failing
                                     Scenario.earlier_store "mod" "x = 1" [] false))
              !! "/out/tmpk3v9_x1a").
Proof.
  set (run := PyFile.write_file
                Scenario.to_bytes Cases.unlink_failing
                (if PyFile.path_exists Scenario.earlier_store (PyFile._path Scenario.writer)
                 then Scenario.earlier_store
                 else PyFile.makedirs Scenario.earlier_store (PyFile._path Scenario.writer))
                (PyFile._path Scenario.writer) (PyFile.pyfile_of Scenario.writer "mod")
                (PyFile.with_comments [] "x = 1")).
  assert (Hw : run = (fst (fst run), Some "/out/tmpk3v9_x1a",
                      Some (PyFile.Caught PyFile.OSError)))
    by (vm_compute; reflexivity).
  destruct (putData_unlink_failure_keeps_temp
              Scenario.to_bytes Scenario.writer Cases.unlink_failing
              Scenario.earlier_store (fst (fst run)) "mod" "x = 1" []
              "/out/tmpk3v9_x1a" PyFile.OSError
              eq_refl (or_introl eq_refl) eq_refl Hw) as (Hput & Htemp & _).
  rewrite Hput. split; [reflexivity | exact Htemp].
Defined.



(** ** Asking twice *)

Lemma getMibVariants_recursive
      (fs : LocalFile.FileSystem) (baseVariants : string -> list (string * string))
      (r r' : LocalFile.FileReader) (mibname : string)
      (res : result LocalFile.exn (list (string * string))) :
  LocalFile.getMibVariants fs baseVariants r mibname = (res, r') ->
  LocalFile._recursive r' = LocalFile._recursive r.
Proof.
  unfold LocalFile.getMibVariants.
  destruct (LocalFile.useIndexFile r); [| intros [= _ <-]; reflexivity].
  destruct (LocalFile._indexLoaded r); [| destruct (LocalFile.loadIndex fs _)]; simpl;
    repeat case_match; intros [= _ <-]; reflexivity.
Qed.

(** X22.  On an unchanged file system a second [getData] for the same
    module, on the reader the first call left behind, gives the same
    outcome (the same content or the same exception) and leaves the
    reader as it is. *)
Theorem getData_again
        (fs : LocalFile.FileSystem) (decode : bytes -> string)
        (baseVariants : string -> list (string * string))
        (fuel : nat) (r r' : LocalFile.FileReader) (mibname : string)
        (res : result LocalFile.exn (LocalFile.MibInfo * string)) :
  LocalFile.getData fs decode baseVariants fuel r mibname = Some (res, r') ->
  LocalFile.getData fs decode baseVariants fuel r' mibname = Some (res, r').
Proof.
  intros H.
  destruct (LocalFile.getSubdirs fs fuel (LocalFile._path r) (LocalFile._recursive r)
                                 (LocalFile.ignoreErrors r)) as [[dirs | e] |] eqn:Hsub.
  - destruct (LocalFile.getMibVariants fs baseVariants r mibname) as [vres r1] eqn:Hv.
    destruct (getMibVariants_config fs baseVariants r r1 mibname vres Hv)
      as (Hm & Hi & _ & Hp).
    pose proof (getMibVariants_recursive fs baseVariants r r1 mibname vres Hv) as Hr.
    pose proof (getMibVariants_stable fs baseVariants r r1 mibname vres Hv) as Hv1.
    assert (Hsub1 : LocalFile.getSubdirs fs fuel (LocalFile._path r1)
                                         (LocalFile._recursive r1)
                                         (LocalFile.ignoreErrors r1) = Some (Ok dirs))
      by (rewrite Hp, Hr, Hi; exact Hsub).
    destruct vres as [vs | e].
    + rewrite (getData_is_search fs decode baseVariants fuel r r1 mibname dirs vs Hsub Hv)
        in H.
      injection H as <- <-.
      rewrite (getData_is_search fs decode baseVariants fuel r1 r1 mibname dirs vs Hsub1 Hv1).
      rewrite (search_ext fs decode r1 r) by assumption. reflexivity.
    + rewrite (getData_variants_raised fs decode baseVariants fuel r r1 mibname dirs e Hsub Hv)
        in H.
      injection H as <- <-.
      exact (getData_variants_raised fs decode baseVariants fuel r1 r1 mibname dirs e
                                     Hsub1 Hv1).
  - unfold LocalFile.getData in H. rewrite Hsub in H. injection H as <- <-.
    unfold LocalFile.getData. rewrite Hsub. reflexivity.
  - unfold LocalFile.getData in H. rewrite Hsub in H. discriminate.
Qed.

Lemma getData_again_witness :
  LocalFile.getData
    Scenario.with_index string_of_list_byte Scenario.two_suffixes 1
    (snd (LocalFile.getMibVariants Scenario.with_index Scenario.two_suffixes
                                   (Scenario.reader false true true 1000) "x"))
    "x"
  = LocalFile.getData Scenario.with_index string_of_list_byte Scenario.two_suffixes 1
                      (Scenario.reader false true true 1000) "x".
Proof.
  set (first := LocalFile.getData Scenario.with_index string_of_list_byte
                                  Scenario.two_suffixes 1
                                  (Scenario.reader false true true 1000) "x").
  assert (Hfirst : first
                   = Some (Ok (LocalFile.entry_of string_of_list_byte "/mibs" "x.txt" 1
                                                  (list_byte_of_string "X")),
                           snd (LocalFile.getMibVariants
                                  Scenario.with_index Scenario.two_suffixes
                                  (Scenario.reader false true true 1000) "x")))
    by (vm_compute; reflexivity).
  rewrite Hfirst.
  exact (getData_again Scenario.with_index string_of_list_byte Scenario.two_suffixes 1
                       (Scenario.reader false true true 1000) _ "x" _ Hfirst).
Defined.
